(** * myfontsns-backend: the user controller and its internal-error class

    A shallow embedding of
    - [src/util/errors/internal-server-error.ts] (module [InternalServerError]),
    - [src/controllers/userController.ts] (module [UserController]) and
    - the second controller source of the repository, which issues its store
      calls directly (module [DirectUserController]),
    together with the parts of the JavaScript runtime, of express-validator
    and of the ORM those files rely on. *)

From Stdlib Require Import ZArith Ascii String List DecimalString Lia Bool.
From Stdlib Require DecimalPos.
From stdpp Require Import base option list strings gmap pretty.

Local Open Scope string_scope.
Local Open Scope Z_scope.
Local Set Warnings "-register-all".

(** ** JavaScript values *)

Module JS.

(** [Number.MAX_SAFE_INTEGER], 2^53 - 1 *)
Definition MAX_SAFE_INTEGER : Z := 9007199254740991.

(** [Number.isSafeInteger], of an integer *)
Definition isSafeInteger (z : Z) : bool := Z.abs z <=? MAX_SAFE_INTEGER.

(** A number: a safe integer, or one of the three numbers that are not
    finite. A safe integer is held exactly by a double and
    [Number::toString] prints it in plain decimal. Fractions and the
    integers beyond the safe range, which a double rounds and, from 10^21,
    prints with an exponent, are not among the values modelled. *)
Inductive number : Type :=
| NInt (z : Z) (safe : Is_true (isSafeInteger z))
| NNaN
| NInfinity (negative : bool).

(** A value as [JSON.stringify], [instanceof Error] and [toString] see it.
    Objects and arrays are trees; a reference from inside an object back to
    one of the objects that contain it is [VCycle]. An [Error] instance
    carries its [name] and [message], which are not enumerable. *)
Inductive value : Type :=
| VUndefined
| VNull
| VBool (b : bool)
| VNumber (n : number)
| VString (s : string)
| VBigInt (z : Z)
| VSymbol (description : string)
| VFunction
| VArray (items : list value)
| VObject (props : list (string * value))
| VError (name message : string)
| VCycle (up : nat).

(** What an evaluation completes with: a result or a thrown value. *)
Inductive completion (A : Type) : Type :=
| Normal (a : A)
| Throw (e : value).
Arguments Normal {A} a.
Arguments Throw {A} e.

Definition bind {A B} (c : completion A) (k : A -> completion B) : completion B :=
  match c with
  | Normal a => k a
  | Throw e => Throw e
  end.

(** [try { body } catch (error) { handler }] *)
Definition try_catch {A} (body : completion A) (handler : value -> completion A)
  : completion A :=
  match body with
  | Normal a => Normal a
  | Throw e => handler e
  end.

Definition TypeError (msg : string) : value := VError "TypeError" msg.
Definition SyntaxError (msg : string) : value := VError "SyntaxError" msg.

(** [value instanceof Error] *)
Definition instanceof_Error (v : value) : bool :=
  match v with
  | VError _ _ => true
  | _ => false
  end.

(** [Error.prototype.toString] *)
Definition Error_toString (name message : string) : string :=
  if String.eqb name "" then message
  else if String.eqb message "" then name
  else name ++ ": " ++ message.

(** *** JSON.stringify *)

Definition hex_digit (n : N) : ascii :=
  ascii_of_N (if (n <? 10)%N then 48 + n else 87 + n)%N.

(** One code unit of [QuoteJSONString]. *)
Definition quote_char (c : ascii) : string :=
  let n := N_of_ascii c in
  if (n =? 8)%N then "\b"
  else if (n =? 9)%N then "\t"
  else if (n =? 10)%N then "\n"
  else if (n =? 12)%N then "\f"
  else if (n =? 13)%N then "\r"
  else if (n =? 34)%N then String "\" (String c "")
  else if (n =? 92)%N then "\\"
  else if (n <? 32)%N then
    "\u00" ++ String (hex_digit (n / 16)) (String (hex_digit (n mod 16)) "")
  else String c "".

Fixpoint quote_chars (s : string) : string :=
  match s with
  | EmptyString => ""
  | String c r => quote_char c ++ quote_chars r
  end.

Definition dquote : string := String (ascii_of_N 34) "".

Definition QuoteJSONString (s : string) : string :=
  dquote ++ quote_chars s ++ dquote.

(** The decimal numeral of an integer. *)
Definition decimal (z : Z) : string := NilEmpty.string_of_int (Z.to_int z).

Definition Number_toString (n : number) : string :=
  match n with
  | NInt z _ => decimal z
  | NNaN => "NaN"
  | NInfinity false => "Infinity"
  | NInfinity true => "-Infinity"
  end.

Definition join_comma (parts : list string) : string :=
  match parts with
  | [] => ""
  | p :: ps => fold_left (fun acc q => acc ++ "," ++ q) ps p
  end.

Definition circular : value :=
  TypeError "Converting circular structure to JSON".

(** [SerializeJSONProperty]: [Normal None] is the answer [undefined]. *)
Fixpoint SerializeJSONProperty (v : value) : completion (option string) :=
  match v with
  | VNull => Normal (Some "null")
  | VBool true => Normal (Some "true")
  | VBool false => Normal (Some "false")
  | VString s => Normal (Some (QuoteJSONString s))
  | VNumber (NInt z safe) => Normal (Some (Number_toString (NInt z safe)))
  | VNumber _ => Normal (Some "null")
  | VBigInt _ => Throw (TypeError "Do not know how to serialize a BigInt")
  | VUndefined | VSymbol _ | VFunction => Normal None
  | VError _ _ => Normal (Some "{}")
  | VCycle _ => Throw circular
  | VArray items =>
      let fix elements (l : list value) : completion (list string) :=
        match l with
        | [] => Normal []
        | x :: r =>
            bind (SerializeJSONProperty x) (fun sx =>
            bind (elements r) (fun sr =>
            Normal (default "null" sx :: sr)))
        end in
      bind (elements items) (fun parts =>
      Normal (Some ("[" ++ join_comma parts ++ "]")))
  | VObject props =>
      let fix members (l : list (string * value)) : completion (list string) :=
        match l with
        | [] => Normal []
        | (k, x) :: r =>
            bind (SerializeJSONProperty x) (fun sx =>
            bind (members r) (fun sr =>
            Normal match sx with
                   | Some t => (QuoteJSONString k ++ ":" ++ t) :: sr
                   | None => sr
                   end))
        end in
      bind (members props) (fun parts =>
      Normal (Some ("{" ++ join_comma parts ++ "}")))
  end.

Definition JSON_stringify (v : value) : completion (option string) :=
  SerializeJSONProperty v.

(** *** JSON.parse *)

(** The tree [JSON.parse] builds; number and string literals are kept as
    they are written in the text. *)
Inductive json : Type :=
| JNull
| JBool (b : bool)
| JNumber (literal : string)
| JString (literal : string)
| JArray (items : list json)
| JObject (members : list (string * json)).

Definition is_ws (c : ascii) : bool :=
  let n := N_of_ascii c in
  (n =? 32)%N || (n =? 9)%N || (n =? 10)%N || (n =? 13)%N.

Definition is_digit (c : ascii) : bool :=
  let n := N_of_ascii c in (48 <=? n)%N && (n <=? 57)%N.

Definition is_hex (c : ascii) : bool :=
  let n := N_of_ascii c in
  is_digit c || ((65 <=? n)%N && (n <=? 70)%N) || ((97 <=? n)%N && (n <=? 102)%N).

Definition is_escape (c : ascii) : bool :=
  let n := N_of_ascii c in
  existsb (N.eqb n) [34; 92; 47; 98; 102; 110; 114; 116]%N.

Fixpoint skip_ws (s : string) : string :=
  match s with
  | String c r => if is_ws c then skip_ws r else s
  | EmptyString => s
  end.

(** The characters of a string literal after its opening quote: the literal
    (in reverse) and the text after the closing quote. *)
Fixpoint scan_string (s : string) (seen : list ascii) : option (list ascii * string) :=
  match s with
  | EmptyString => None
  | String c r =>
      let n := N_of_ascii c in
      if (n =? 34)%N then Some (seen, r)
      else if (n =? 92)%N then
        match r with
        | String e r1 =>
            if is_escape e then scan_string r1 (e :: c :: seen)
            else if (N_of_ascii e =? 117)%N then
              match r1 with
              | String h1 (String h2 (String h3 (String h4 r2))) =>
                  if is_hex h1 && is_hex h2 && is_hex h3 && is_hex h4
                  then scan_string r2 (h4 :: h3 :: h2 :: h1 :: e :: c :: seen)
                  else None
              | _ => None
              end
            else None
        | EmptyString => None
        end
      else if (n <? 32)%N then None
      else scan_string r (c :: seen)
  end.

Definition parse_string (s : string) : option (string * string) :=
  match scan_string s [] with
  | Some (seen, r) => Some (string_of_list_ascii (rev seen), r)
  | None => None
  end.

Fixpoint span_digits (s : string) : string * string :=
  match s with
  | String c r =>
      if is_digit c then let '(d, r') := span_digits r in (String c d, r')
      else ("", s)
  | EmptyString => ("", "")
  end.

Definition parse_int_part (s : string) : option (string * string) :=
  match s with
  | String c r =>
      if (N_of_ascii c =? 48)%N then Some ("0", r)
      else if is_digit c then let '(d, r') := span_digits r in Some (String c d, r')
      else None
  | EmptyString => None
  end.

Definition parse_frac_part (s : string) : option (string * string) :=
  match s with
  | String c r =>
      if (N_of_ascii c =? 46)%N then
        match span_digits r with
        | (EmptyString, _) => None
        | (d, r') => Some (String c d, r')
        end
      else Some ("", s)
  | EmptyString => Some ("", s)
  end.

Definition parse_exp_part (s : string) : option (string * string) :=
  match s with
  | String c r =>
      if (N_of_ascii c =? 101)%N || (N_of_ascii c =? 69)%N then
        let '(sign, r0) :=
          match r with
          | String g r' =>
              if (N_of_ascii g =? 43)%N || (N_of_ascii g =? 45)%N
              then (String g "", r') else ("", r)
          | EmptyString => ("", r)
          end in
        match span_digits r0 with
        | (EmptyString, _) => None
        | (d, r') => Some (String c (sign ++ d), r')
        end
      else Some ("", s)
  | EmptyString => Some ("", s)
  end.

Definition parse_number (s : string) : option (string * string) :=
  let '(sign, s0) :=
    match s with
    | String c r => if (N_of_ascii c =? 45)%N then (String c "", r) else ("", s)
    | EmptyString => ("", s)
    end in
  '(i, s1) ← parse_int_part s0;
  '(f, s2) ← parse_frac_part s1;
  '(e, s3) ← parse_exp_part s2;
  Some (sign ++ i ++ f ++ e, s3).

Fixpoint strip_prefix (p s : string) : option string :=
  match p, s with
  | EmptyString, _ => Some s
  | String a p', String b s' => if Ascii.eqb a b then strip_prefix p' s' else None
  | String _ _, EmptyString => None
  end.

(** Recursive descent; [fuel] bounds the number of nested and successive
    values, which the length of the text bounds in turn. *)
Fixpoint parse_value (fuel : nat) (s : string) : option (json * string) :=
  match fuel with
  | O => None
  | S fuel =>
      match skip_ws s with
      | EmptyString => None
      | String c r as t =>
          let n := N_of_ascii c in
          if (n =? 123)%N then
            match skip_ws r with
            | String c' r' as t' =>
                if (N_of_ascii c' =? 125)%N then Some (JObject [], r')
                else parse_members fuel t' []
            | EmptyString => None
            end
          else if (n =? 91)%N then
            match skip_ws r with
            | String c' r' as t' =>
                if (N_of_ascii c' =? 93)%N then Some (JArray [], r')
                else parse_elements fuel t' []
            | EmptyString => None
            end
          else if (n =? 34)%N then
            '(lit, r') ← parse_string r; Some (JString lit, r')
          else if (n =? 116)%N then
            r' ← strip_prefix "true" t; Some (JBool true, r')
          else if (n =? 102)%N then
            r' ← strip_prefix "false" t; Some (JBool false, r')
          else if (n =? 110)%N then
            r' ← strip_prefix "null" t; Some (JNull, r')
          else
            '(lit, r') ← parse_number t; Some (JNumber lit, r')
      end
  end
with parse_elements (fuel : nat) (s : string) (seen : list json)
  : option (json * string) :=
  match fuel with
  | O => None
  | S fuel =>
      '(v, r) ← parse_value fuel s;
      match skip_ws r with
      | String c r' =>
          if (N_of_ascii c =? 44)%N then parse_elements fuel r' (v :: seen)
          else if (N_of_ascii c =? 93)%N then Some (JArray (rev (v :: seen)), r')
          else None
      | EmptyString => None
      end
  end
with parse_members (fuel : nat) (s : string) (seen : list (string * json))
  : option (json * string) :=
  match fuel with
  | O => None
  | S fuel =>
      match skip_ws s with
      | String q r0 =>
          if (N_of_ascii q =? 34)%N then
            '(k, r1) ← parse_string r0;
            match skip_ws r1 with
            | String c r2 =>
                if (N_of_ascii c =? 58)%N then
                  '(v, r3) ← parse_value fuel r2;
                  match skip_ws r3 with
                  | String d r4 =>
                      if (N_of_ascii d =? 44)%N
                      then parse_members fuel r4 ((k, v) :: seen)
                      else if (N_of_ascii d =? 125)%N
                      then Some (JObject (rev ((k, v) :: seen)), r4)
                      else None
                  | EmptyString => None
                  end
                else None
            | EmptyString => None
            end
          else None
      | EmptyString => None
      end
  end.

Definition unexpected : value := SyntaxError "Unexpected token in JSON".

(** [JSON.parse(text)] where [text] is what [JSON.stringify] answered:
    [undefined] is first converted to the string ["undefined"]. *)
Definition JSON_parse (text : option string) : completion json :=
  let s := default "undefined" text in
  match parse_value (2 * String.length s + 2) s with
  | Some (j, r) =>
      match skip_ws r with
      | EmptyString => Normal j
      | String _ _ => Throw unexpected
      end
  | None => Throw unexpected
  end.

End JS.

Import JS.

(** ** http-status-codes: the rows this repository uses *)

Module StatusCodes.
Definition OK : Z := 200.
Definition CREATED : Z := 201.
Definition NOT_FOUND : Z := 404.
Definition UNPROCESSABLE_ENTITY : Z := 422.
Definition INTERNAL_SERVER_ERROR : Z := 500.
End StatusCodes.

(** [statusCodeToReasonPhrase], the table of http-status-codes *)
Definition statusCodeToReasonPhrase : list (Z * string) :=
  [ (100, "Continue"); (101, "Switching Protocols"); (102, "Processing");
    (103, "Early Hints");
    (200, "OK"); (201, "Created"); (202, "Accepted");
    (203, "Non Authoritative Information"); (204, "No Content");
    (205, "Reset Content"); (206, "Partial Content"); (207, "Multi-Status");
    (300, "Multiple Choices"); (301, "Moved Permanently");
    (302, "Moved Temporarily"); (303, "See Other"); (304, "Not Modified");
    (305, "Use Proxy"); (307, "Temporary Redirect"); (308, "Permanent Redirect");
    (400, "Bad Request"); (401, "Unauthorized"); (402, "Payment Required");
    (403, "Forbidden"); (404, "Not Found"); (405, "Method Not Allowed");
    (406, "Not Acceptable"); (407, "Proxy Authentication Required");
    (408, "Request Timeout"); (409, "Conflict"); (410, "Gone");
    (411, "Length Required"); (412, "Precondition Failed");
    (413, "Request Entity Too Large"); (414, "Request-URI Too Long");
    (415, "Unsupported Media Type"); (416, "Requested Range Not Satisfiable");
    (417, "Expectation Failed"); (418, "I'm a teapot");
    (419, "Insufficient Space on Resource"); (420, "Method Failure");
    (421, "Misdirected Request"); (422, "Unprocessable Entity");
    (423, "Locked"); (424, "Failed Dependency"); (426, "Upgrade Required");
    (428, "Precondition Required"); (429, "Too Many Requests");
    (431, "Request Header Fields Too Large");
    (451, "Unavailable For Legal Reasons");
    (500, "Internal Server Error"); (501, "Not Implemented");
    (502, "Bad Gateway"); (503, "Service Unavailable");
    (504, "Gateway Timeout"); (505, "HTTP Version Not Supported");
    (507, "Insufficient Storage"); (511, "Network Authentication Required") ].

(** [getReasonPhrase(statusCode)]: the phrase the table has for the code;
    a code the table does not have makes it throw. *)
Definition getReasonPhrase (statusCode : Z) : completion string :=
  match List.find (fun row => fst row =? statusCode) statusCodeToReasonPhrase with
  | Some row => Normal (snd row)
  | None =>
      Throw (VError "Error" ("Status code does not exist: " ++ decimal statusCode))
  end.

(** ** src/util/errors/internal-server-error.ts *)

Module InternalServerError.

(** [isSerializable]: the [try] block answers [true], the [catch] block
    [false]. *)
Definition isSerializable (v : value) : completion bool :=
  try_catch
    (bind (JSON_stringify v) (fun text =>
     bind (JSON_parse text) (fun _ =>
     Normal true)))
    (fun _ => Normal false).

(** The instance: the two properties [Error] gives it and the three the
    class declares. *)
Record t : Type := mk {
  name : string;
  message : string;
  statusCode : Z;
  error : value;
  detail : value;
}.

Definition generic_detail : string :=
  "The server encountered an internal error or misconfiguration and was unable to complete your request.
    Please contact the server administrator and inform them of the time the error occurred and anything you might have done that may have caused the error.
    More information about this error may be available in the server error log.".

(** [new InternalServerError(error)]. [super()] is called with no message,
    so [message] is the empty string of [Error.prototype]. *)
Definition new (error : value) : t :=
  {| name := "InternalServerError";
     message := "";
     statusCode := StatusCodes.INTERNAL_SERVER_ERROR;
     error := error;
     detail := VString generic_detail |}.

Definition set_detail (this : t) (d : value) : t :=
  {| name := name this; message := message this;
     statusCode := statusCode this; error := error this; detail := d |}.

(** What [toJSON] returns. *)
Record entry : Type := mk_entry {
  entry_status : value;
  entry_title : value;
  entry_detail : value;
}.

(** [this.error.toString()] on the branch where [this.error] is an [Error] *)
Definition error_toString (v : value) : string :=
  match v with
  | VError n m => Error_toString n m
  | _ => ""
  end.

Definition of_text (text : option string) : value :=
  match text with
  | Some s => VString s
  | None => VUndefined
  end.

(** [toJSON()]: the instance after the call and the object returned. *)
Definition toJSON (this : t) : completion (t * entry) :=
  bind
    (if instanceof_Error (error this) then
       Normal (set_detail this (VString (error_toString (error this))))
     else
       bind (isSerializable (error this)) (fun ok =>
       if ok : bool then
         bind (JSON_stringify (error this)) (fun text =>
         Normal (set_detail this (of_text text)))
       else Normal this))
    (fun this =>
  bind (getReasonPhrase (statusCode this)) (fun phrase =>
  Normal (this, {| entry_status := VString phrase;
                   entry_title := VString (name this);
                   entry_detail := VString (message this) |}))).

(** The entry every serialization returns, and the [detail] property as
    [toJSON] leaves it on the instance. *)
Definition the_entry : entry :=
  {| entry_status := VString "Internal Server Error";
     entry_title := VString "InternalServerError";
     entry_detail := VString "" |}.

Definition detail_property (F : value) : value :=
  match F with
  | VError n m => VString (Error_toString n m)
  | _ =>
      match isSerializable F, JSON_stringify F with
      | Normal true, Normal (Some s) => VString s
      | _, _ => VString generic_detail
      end
  end.

End InternalServerError.

(** ** express-validator, and the schema helpers of lib/express-validator *)

Module Validation.

(** The checks a field's options can ask for. *)
Inductive kind : Type :=
| MustExist
| MustNotExist
| MustNotBeEmpty
| MustBeEmailShaped
| MustMeetPasswordStrength.

#[global] Instance kind_eq_dec : EqDecision kind.
Proof. solve_decision. Defined.

(** validator.js and the texts of the option bundles: the predicates behind
    [notEmpty], [isEmail] and [isStrongPassword], the [normalizeEmail]
    sanitizer, the error message each check reports, and which checks stop
    the rest of their field's chain when they fail. *)
Class ValidatorJs : Type := {
  notEmpty : value -> bool;
  isEmail : value -> bool;
  isStrongPassword : value -> bool;
  normalizeEmail : value -> value;
  errorMessage : kind -> string;
  blocking : kind -> bool;
}.

(** One step of a field's chain. *)
Inductive constraint : Type :=
| Check (k : kind)
| Normalize.

(** Modelled from the spec: the option bundles [shouldExist],
    [shouldNotExist], [shouldNotBeEmpty], [shouldBeEmail] and
    [shouldBeStrongPassword] of lib/express-validator/custom-param-schemas,
    each the ordered list of checks it contributes; spreading bundles into
    one field's options appends their checks. *)
Definition shouldExist : list constraint := [Check MustExist].
Definition shouldNotExist : list constraint := [Check MustNotExist].
Definition shouldNotBeEmpty : list constraint := [Check MustNotBeEmpty].
Definition shouldBeEmail : list constraint := [Check MustBeEmailShaped].
Definition shouldBeStrongPassword : list constraint := [Check MustMeetPasswordStrength].
(** The option [normalizeEmail: true]. *)
Definition normalizeEmail_true : list constraint := [Normalize].

(** A validation chain on one field of the body. [only_if_present] is the
    guard [.if(body(field).exists())]. *)
Record chain : Type := mk_chain {
  field : string;
  only_if_present : bool;
  steps : list constraint;
}.

(** [req.body[field]]: a field the payload omits reads as [undefined]. *)
Definition body_get (body : gmap string value) (f : string) : value :=
  default VUndefined (body !! f).

(** [exists()] *)
Definition exists_ (v : value) : bool :=
  match v with
  | VUndefined => false
  | _ => true
  end.

Section Runner.
Context `{ValidatorJs}.

Definition passes (k : kind) (v : value) : bool :=
  match k with
  | MustExist => exists_ v
  | MustNotExist => negb (exists_ v)
  | MustNotBeEmpty => notEmpty v
  | MustBeEmailShaped => isEmail v
  | MustMeetPasswordStrength => isStrongPassword v
  end.

(** Modelled from the spec: how the runner of
    lib/express-validator/custom-param-schemas takes one field through its
    chain. Every check is evaluated on the current value; a failing blocking
    check ends the chain, a failing non-blocking one is recorded and the
    chain goes on; the sanitizer rewrites the value and leaves an absent
    one alone. *)
Fixpoint run_steps (cs : list constraint) (v : value) : list kind * value :=
  match cs with
  | [] => ([], v)
  | Check k :: r =>
      if passes k v then run_steps r v
      else if blocking k then ([k], v)
      else let '(ks, v') := run_steps r v in (k :: ks, v')
  | Normalize :: r =>
      run_steps r (if exists_ v then normalizeEmail v else v)
  end.

(** What running one chain leaves in the request: the field, its failed
    checks, and its value after the sanitizers. *)
Record context : Type := mk_context {
  ctx_field : string;
  ctx_failed : list kind;
  ctx_value : value;
}.

Definition run_chain (body : gmap string value) (c : chain) : context :=
  let v := body_get body (field c) in
  if only_if_present c && negb (exists_ v) then
    {| ctx_field := field c; ctx_failed := []; ctx_value := v |}
  else
    let '(ks, v') := run_steps (steps c) v in
    {| ctx_field := field c; ctx_failed := ks; ctx_value := v' |}.

(** Modelled from the spec: [runAllValidations] of
    lib/express-validator/custom-param-schemas runs every chain on the
    request, whatever the others report. *)
Definition runAllValidations (validations : list chain)
    (body : gmap string value) : list context :=
  map (run_chain body) validations.

(** A failure as [errorFormatter] leaves it: the field and the message. *)
Record FieldFailure : Type := mk_failure {
  ff_field : string;
  ff_message : string;
}.

#[global] Instance FieldFailure_eq_dec : EqDecision FieldFailure.
Proof. solve_decision. Defined.

Definition failures_of (c : context) : list FieldFailure :=
  map (fun k => {| ff_field := ctx_field c; ff_message := errorMessage k |})
      (ctx_failed c).

(** Modelled from the spec: [errorFormatter] of
    lib/express-validator/error-formatter, applied by
    [validationResult(req).formatWith(errorFormatter)]: the failures in the
    order the fields are declared, a repeated field and reason kept once. *)
Fixpoint dedupe (l : list FieldFailure) : list FieldFailure :=
  match l with
  | [] => []
  | x :: r => x :: filter (fun y => y ≠ x) (dedupe r)
  end.

Definition validationResult (cs : list context) : list FieldFailure :=
  dedupe (concat (map failures_of cs)).

(** No failure is recorded on the field. *)
Definition valid (c : context) : bool :=
  match ctx_failed c with
  | [] => true
  | _ :: _ => false
  end.

(** [matchedData(req)] with its default options: the fields that were
    validated and have no failure recorded, each set, in the order the
    chains ran, to the value its chain left. A field the payload omits is an
    own key whose value is [undefined]: the library leaves an undefined
    field out only when its chain is declared [.optional()], and no chain
    of this repository is. *)
Definition matchedData (cs : list context) : gmap string value :=
  foldl (fun data c => <[ctx_field c := ctx_value c]> data) ∅
        (List.filter valid cs).

End Runner.

(** Modelled from the spec: [checkBodySchema] of
    lib/express-validator/custom-param-schemas turns a schema, field by
    field in the order written, into chains on the body. *)
Definition checkBodySchema (schema : list (string * list constraint)) : list chain :=
  map (fun '(f, cs) => {| field := f; only_if_present := false; steps := cs |})
      schema.

(** [body(f).if(body(f).exists()).custom(useValidators({f: checks}))
      .customSanitizer(useSanitizers({f: sanitizers}))] *)
Definition body_if_exists (f : string) (checks sanitizers : list constraint) : chain :=
  {| field := f; only_if_present := true; steps := checks ++ sanitizers |}.

End Validation.

(** ** The ORM, the transaction primitive and faker *)

Module Sequelize.

(** A [User] instance in memory: its primary key and its [dataValues]. *)
Record instance : Type := mk_instance {
  pk : string;
  dataValues : gmap string value;
}.

(** The calls a handler issues to the store. A write carries the
    [transaction] option it is given. *)
Inductive event : Type :=
| ETransaction (t : nat)
| ECommit (t : nat)
| ERollback (t : nat)
| EFindAll
| EFindByPk (id : string)
| EReload (id : string)
| ECreate (values : gmap string value) (tx : option nat)
| EUpdate (id : string) (values : gmap string value) (tx : option nat)
| EDestroy (id : string) (tx : option nat).

(** The table, the counters for keys and transactions, the faults the store
    will signal (one slot per call, in call order; [Some e] makes that call
    reject with [e]) and the numbers faker will draw. *)
Record world : Type := mk_world {
  rows : gmap string (gmap string value);
  next_pk : N;
  next_tx : nat;
  plan : list (option value);
  entropy : list nat;
}.

Definition with_rows (w : world) (r : gmap string (gmap string value)) : world :=
  {| rows := r; next_pk := next_pk w; next_tx := next_tx w;
     plan := plan w; entropy := entropy w |}.

Definition with_plan (w : world) (p : list (option value)) : world :=
  {| rows := rows w; next_pk := next_pk w; next_tx := next_tx w;
     plan := p; entropy := entropy w |}.

Definition with_entropy (w : world) (e : list nat) : world :=
  {| rows := rows w; next_pk := next_pk w; next_tx := next_tx w;
     plan := plan w; entropy := e |}.

(** An awaited computation: how it completes, the world it leaves and the
    store calls it issued. *)
Record result (A : Type) : Type := mk_result {
  outcome : completion A;
  final : world;
  trace : list event;
}.
Arguments mk_result {A}.
Arguments outcome {A}.
Arguments final {A}.
Arguments trace {A}.

Definition M (A : Type) : Type := world -> result A.

Definition ret {A} (a : A) : M A :=
  fun w => {| outcome := Normal a; final := w; trace := [] |}.

Definition throw {A} (e : value) : M A :=
  fun w => {| outcome := Throw e; final := w; trace := [] |}.

Definition bindM {A B} (m : M A) (k : A -> M B) : M B :=
  fun w =>
    match m w with
    | mk_result (Normal a) w1 t1 =>
        match k a w1 with
        | mk_result o w2 t2 => mk_result o w2 (t1 ++ t2)
        end
    | mk_result (Throw e) w1 t1 => mk_result (Throw e) w1 t1
    end.

#[global] Instance M_ret : MRet M := @ret.
#[global] Instance M_bind : MBind M := fun A B k m => bindM m k.

(** [let x; try { x = await body } catch (error) { return handler(error) }]
    followed by the rest of the handler, [k x]. *)
Definition try_or_return {A R} (body : M A) (handler : value -> M R)
    (k : A -> M R) : M R :=
  fun w =>
    match body w with
    | mk_result (Normal a) w1 t1 =>
        match k a w1 with
        | mk_result o w2 t2 => mk_result o w2 (t1 ++ t2)
        end
    | mk_result (Throw e) w1 t1 =>
        match handler e w1 with
        | mk_result o w2 t2 => mk_result o w2 (t1 ++ t2)
        end
    end.

(** The fault the next call to the store meets, and the world once that
    call has used up its slot of the plan. *)
Definition next_fault (w : world) : option value :=
  match plan w with
  | [] => None
  | f :: _ => f
  end.

Definition after_call (w : world) : world := with_plan w (tail (plan w)).

(** A call to the store: it is issued, and then either rejects or runs. *)
Definition store_call {A} (ev : event) (run : world -> A * world) : M A :=
  fun w =>
    match next_fault w with
    | Some e => {| outcome := Throw e; final := after_call w; trace := [ev] |}
    | None =>
        let '(a, w1) := run (after_call w) in
        {| outcome := Normal a; final := w1; trace := [ev] |}
    end.

(** The model class: what its setters make of submitted values and the
    public representation [convert()] gives; the texts of the not-found and
    internal-error entries of lib/controller. *)
Class UserModel : Type := {
  setters : gmap string value -> gmap string value;
  convert_values : string -> gmap string value -> value;
  notFoundDetail : string;
  internalErrorDetail : string;
}.

(** [_.omitBy(values, value => value === undefined)] *)
Definition omit_undefined (values : gmap string value) : gmap string value :=
  omap (fun v => match v with VUndefined => None | _ => Some v end) values.

Section Store.
Context `{UserModel}.

Definition convert (u : instance) : value := convert_values (pk u) (dataValues u).

Definition findAll : M (list instance) :=
  store_call EFindAll (fun w =>
    (map (fun '(k, r) => mk_instance k r) (map_to_list (rows w)), w)).

Definition findByPk (id : string) : M (option instance) :=
  store_call (EFindByPk id) (fun w => (mk_instance id <$> rows w !! id, w)).

(** [User.create(values, { transaction })] *)
Definition create (values : gmap string value) (tx : option nat) : M instance :=
  store_call (ECreate values tx) (fun w =>
    let id := pretty (next_pk w) in
    let r := setters values in
    (mk_instance id r,
     {| rows := <[id := r]> (rows w); next_pk := N.succ (next_pk w);
        next_tx := next_tx w; plan := plan w; entropy := entropy w |})).

(** [user.update(values, { transaction })]. The call is recorded with the
    argument as the handler gives it. [Model.update] first drops the
    properties of [values] whose value is undefined; of the others the
    instance takes the values as submitted, the table what the setters make
    of them. *)
Definition update (u : instance) (values : gmap string value) (tx : option nat)
  : M instance :=
  store_call (EUpdate (pk u) values tx) (fun w =>
    let given := omit_undefined values in
    (mk_instance (pk u) (given ∪ dataValues u),
     with_rows w (alter (fun r => setters given ∪ r) (pk u) (rows w)))).

(** [user.destroy({ transaction })] *)
Definition destroy (u : instance) (tx : option nat) : M unit :=
  store_call (EDestroy (pk u) tx) (fun w => (tt, with_rows w (delete (pk u) (rows w)))).

(** [user.reload()]: reads the row again; rejects when it is gone. *)
Definition reload (u : instance) : M instance :=
  bindM
    (store_call (EReload (pk u)) (fun w => (rows w !! pk u, w)))
    (fun r => match r with
              | Some r => ret (mk_instance (pk u) r)
              | None => throw (VError "SequelizeInstanceError" "Instance could not be reloaded")
              end).

(** [db.transaction(fn)]: opens a transaction, awaits [fn(t)], commits when
    it resolves and rolls the table back when it rejects or the commit
    does. *)
Definition transaction {A} (fn : nat -> M A) : M A :=
  fun w =>
    let t := next_tx w in
    let w0 := {| rows := rows w; next_pk := next_pk w; next_tx := S t;
                 plan := plan w; entropy := entropy w |} in
    match next_fault w0 with
    | Some e =>
        {| outcome := Throw e; final := after_call w0; trace := [ETransaction t] |}
    | None =>
        match fn t (after_call w0) with
        | mk_result (Normal a) w1 t1 =>
            match next_fault w1 with
            | None =>
                {| outcome := Normal a; final := after_call w1;
                   trace := ETransaction t :: t1 ++ [ECommit t] |}
            | Some e =>
                {| outcome := Throw e; final := with_rows (after_call w1) (rows w);
                   trace := ETransaction t :: t1 ++ [ERollback t] |}
            end
        | mk_result (Throw e) w1 t1 =>
            {| outcome := Throw e; final := with_rows w1 (rows w);
               trace := ETransaction t :: t1 ++ [ERollback t] |}
        end
    end.

End Store.

(** *** faker *)

Definition alphaNumeric_chars : list ascii :=
  list_ascii_of_string "0123456789abcdefghijklmnopqrstuvwxyz".

(** A digit or a lower-case letter. *)
Definition alphanumeric (c : ascii) : bool :=
  let n := N_of_ascii c in
  ((48 <=? n)%N && (n <=? 57)%N) || ((97 <=? n)%N && (n <=? 122)%N).

(** [faker.random.arrayElement(array)] on a drawn number *)
Definition arrayElement (array : list ascii) (drawn : nat) : ascii :=
  nth (drawn mod length array) array "0"%char.

Fixpoint alphaNumeric_from (count : nat) (e : list nat) : string * list nat :=
  match count with
  | O => ("", e)
  | S count =>
      let '(drawn, e1) := match e with [] => (O, []) | d :: e1 => (d, e1) end in
      let '(s, e2) := alphaNumeric_from count e1 in
      (String (arrayElement alphaNumeric_chars drawn) s, e2)
  end.

(** [faker.random.alphaNumeric(count)] *)
Definition alphaNumeric (count : nat) : M string :=
  fun w =>
    let r := alphaNumeric_from count (entropy w) in
    {| outcome := Normal r.1; final := with_entropy w r.2; trace := [] |}.

End Sequelize.

(** ** lib/json-api/response, lib/controller and the error formatter *)

Module JsonApi.
Import Validation Sequelize.

(** One object of the [errors] member. *)
Record ErrorObject : Type := mk_error {
  status : Z;
  title : string;
  detail : string;
  source : option string;
}.

(** What a handler passes to [docWithErrors]: one error object or several. *)
Inductive errorResponse : Type :=
| One (e : ErrorObject)
| Many (es : list ErrorObject).

Inductive document : Type :=
| Data (data : value)
| Errors (errors : list ErrorObject).

(** Modelled from the spec: [docWithData] and [docWithErrors] of
    lib/json-api/response build the success envelope around the
    representation and the failure envelope around the error entries. *)
Definition docWithData (data : value) : document := Data data.
Definition docWithErrors (e : errorResponse) : document :=
  match e with
  | One e => Errors [e]
  | Many es => Errors es
  end.

(** Modelled from the spec: [validationError] of
    lib/express-validator/error-formatter, one 422 entry per formatted
    failure, scoped to its field. *)
Definition validationError (errors : list FieldFailure) : errorResponse :=
  Many (map (fun f => {| status := StatusCodes.UNPROCESSABLE_ENTITY;
                         title := "Unprocessable Entity";
                         detail := ff_message f;
                         source := Some (ff_field f) |}) errors).

Section Controller.
Context `{UserModel}.

(** Modelled from the spec: [resourceNotFound] and [internalServerError] of
    lib/controller, the 404 and the 500 entry of the taxonomy. *)
Definition resourceNotFound : ErrorObject :=
  {| status := StatusCodes.NOT_FOUND; title := "Not Found";
     detail := notFoundDetail; source := None |}.
Definition internalServerError (error : value) : errorResponse :=
  One {| status := StatusCodes.INTERNAL_SERVER_ERROR;
         title := "Internal Server Error";
         detail := internalErrorDetail; source := None |}.

End Controller.

(** The request as the handlers read it and the response they send. *)
Record request : Type := mk_request {
  params_id : string;
  body : gmap string value;
}.

Record response : Type := mk_response {
  statusCode : Z;
  sent : document;
}.

(** [res.status(code).send(doc)] and [res.send(doc)] *)
Definition res_status_send (code : Z) (doc : document) : response :=
  {| statusCode := code; sent := doc |}.
Definition res_send (doc : document) : response :=
  {| statusCode := StatusCodes.OK; sent := doc |}.

End JsonApi.

(** ** The schemas both controller sources declare *)

Module Schemas.
Import Validation.

(** The argument of [checkBodySchema] in [create]. *)
Definition create_schema : list (string * list constraint) :=
  [ ("name", shouldNotExist);
    ("screenName", shouldExist ++ shouldNotBeEmpty);
    ("email", shouldExist ++ shouldNotBeEmpty ++ shouldBeEmail ++ normalizeEmail_true);
    ("password", shouldExist ++ shouldNotBeEmpty ++ shouldBeStrongPassword) ]%list.

(** The [validations] array of [update]. *)
Definition update_validations : list chain :=
  [ body_if_exists "name" shouldNotBeEmpty [];
    body_if_exists "screenName" shouldNotBeEmpty [];
    body_if_exists "email" (shouldNotBeEmpty ++ shouldBeEmail)%list normalizeEmail_true;
    body_if_exists "password" (shouldNotBeEmpty ++ shouldBeStrongPassword)%list [] ].

#[global] Instance constraint_eq_dec : EqDecision constraint.
Proof. solve_decision. Defined.

(** The fields [create] requires: those whose options include
    [shouldExist]. *)
Definition required_fields : list string :=
  map fst (filter (fun fc => Check MustExist ∈ fc.2) create_schema).

(** The fields [update] validates. *)
Definition optional_fields : list string := map field update_validations.

(** The object literal [{ name, screenName, email, password }]. *)
Definition user_values (name screenName email password : value) : gmap string value :=
  <["name" := name]> (<["screenName" := screenName]>
    (<["email" := email]> (<["password" := password]> ∅))).

End Schemas.

(** ** src/controllers/userController.ts *)

Module UserController.
Import Validation Sequelize JsonApi Schemas.

Section Handlers.
Context `{ValidatorJs} `{UserModel}.

(** [getUserById]: the user found, or the not-found error object in its
    place. *)
Definition getUserById (id : string) : M (ErrorObject + instance) :=
  bindM (findByPk id) (fun result =>
  ret match result with
      | None => inl resourceNotFound
      | Some user => inr user
      end).

(** The body every [catch (error)] of the store calls has. *)
Definition respond_500 (error : value) : M response :=
  ret (res_status_send StatusCodes.INTERNAL_SERVER_ERROR
         (docWithErrors (internalServerError error))).

(** display a list of all users *)
Definition index (req : request) : M response :=
  try_or_return findAll respond_500 (fun users =>
  let dataResponse := VArray (map convert users) in
  ret (res_send (docWithData dataResponse))).

(** create a new user. The [try] around the validation is the case on its
    result; [throw()] throws when there is a failure. *)
Definition create (req : request) : M response :=
  let validations := checkBodySchema create_schema in
  let contexts := runAllValidations validations (body req) in
  match validationResult contexts with
  | (_ :: _) as errors =>
      let errorResponse := validationError errors in
      ret (res_status_send StatusCodes.UNPROCESSABLE_ENTITY (docWithErrors errorResponse))
  | [] =>
      let validatedUserData := matchedData contexts in
      let screenName := body_get validatedUserData "screenName" in
      let email := body_get validatedUserData "email" in
      let password := body_get validatedUserData "password" in
      try_or_return
        (transaction (fun t =>
           bindM (alphaNumeric 15) (fun name =>
           Sequelize.create (user_values (VString name) screenName email password)
                            (Some t))))
        respond_500
        (fun user =>
           let dataResponse := convert user in
           ret (res_status_send StatusCodes.CREATED (docWithData dataResponse)))
  end.

(** display a specific user *)
Definition show (req : request) : M response :=
  try_or_return (getUserById (params_id req)) respond_500 (fun result =>
  match result with
  | inl errorObject =>
      ret (res_status_send StatusCodes.NOT_FOUND (docWithErrors (One errorObject)))
  | inr user =>
      let dataResponse := convert user in
      ret (res_send (docWithData dataResponse))
  end).

(** update a specific user. [useValidatorsSchema(req)] and
    [useSanitizersSchema(req)] only build the functions the chains take;
    they are part of [update_validations]. *)
Definition update (req : request) : M response :=
  try_or_return (getUserById (params_id req)) respond_500 (fun result =>
  match result with
  | inl errorResponse =>
      ret (res_status_send StatusCodes.NOT_FOUND (docWithErrors (One errorResponse)))
  | inr user =>
      let validations := update_validations in
      let contexts := runAllValidations validations (body req) in
      match validationResult contexts with
      | (_ :: _) as errors =>
          let errorResponse := validationError errors in
          ret (res_status_send StatusCodes.UNPROCESSABLE_ENTITY
                 (docWithErrors errorResponse))
      | [] =>
          let validatedUserData := matchedData contexts in
          try_or_return
            (transaction (fun t => Sequelize.update user validatedUserData (Some t)))
            respond_500
            (fun _ =>
               bindM (reload user) (fun reloaded =>
               let dataResponse := convert reloaded in
               ret (res_send (docWithData dataResponse))))
      end
  end).

(** delete a specific user *)
Definition destroy (req : request) : M response :=
  try_or_return (getUserById (params_id req)) respond_500 (fun result =>
  match result with
  | inl errorResponse =>
      ret (res_status_send StatusCodes.NOT_FOUND (docWithErrors (One errorResponse)))
  | inr user =>
      try_or_return
        (transaction (fun t => Sequelize.destroy user (Some t)))
        respond_500
        (fun _ =>
           let dataResponse := convert user in
           ret (res_send (docWithData dataResponse)))
  end).

End Handlers.
End UserController.

(** ** The controller source that calls the store directly *)

Module DirectUserController.
Import Validation Sequelize JsonApi Schemas.

Section Handlers.
Context `{ValidatorJs} `{UserModel}.

(** [{ user, notFound }] *)
Definition getUserById (id : string) : M (option instance * option ErrorObject) :=
  bindM (findByPk id) (fun user =>
  let notFound := match user with
                  | None => Some resourceNotFound
                  | Some _ => None
                  end in
  ret (user, notFound)).

(** display a list of all users; a rejection of the store is not caught
    here nor in the handlers below. *)
Definition index (req : request) : M response :=
  bindM findAll (fun users =>
  let data := VArray (map convert users) in
  ret (res_send (docWithData data))).

(** create a new user *)
Definition create (req : request) : M response :=
  let validations := checkBodySchema create_schema in
  let contexts := runAllValidations validations (body req) in
  match validationResult contexts with
  | (_ :: _) as errors =>
      let error := validationError errors in
      ret (res_status_send StatusCodes.UNPROCESSABLE_ENTITY (docWithErrors error))
  | [] =>
      let validatedUserData := matchedData contexts in
      let screenName := body_get validatedUserData "screenName" in
      let email := body_get validatedUserData "email" in
      let password := body_get validatedUserData "password" in
      bindM (alphaNumeric 15) (fun name =>
      bindM (Sequelize.create (user_values (VString name) screenName email password) None)
            (fun user =>
      let data := convert user in
      ret (res_status_send StatusCodes.CREATED (docWithData data))))
  end.

(** [user!]: the handlers reach it only after [notFound] was unset. *)
Definition non_null (id : string) (user : option instance) : instance :=
  default (mk_instance id ∅) user.

(** display a specific user *)
Definition show (req : request) : M response :=
  bindM (getUserById (params_id req)) (fun '(user, notFound) =>
  match notFound with
  | Some notFound =>
      ret (res_status_send StatusCodes.NOT_FOUND (docWithErrors (One notFound)))
  | None =>
      let data := convert (non_null (params_id req) user) in
      ret (res_send (docWithData data))
  end).

(** update a specific user *)
Definition update (req : request) : M response :=
  bindM (getUserById (params_id req)) (fun '(user, notFound) =>
  match notFound with
  | Some notFound =>
      ret (res_status_send StatusCodes.NOT_FOUND (docWithErrors (One notFound)))
  | None =>
      let validations := update_validations in
      let contexts := runAllValidations validations (body req) in
      match validationResult contexts with
      | (_ :: _) as errors =>
          let error := validationError errors in
          ret (res_status_send StatusCodes.UNPROCESSABLE_ENTITY (docWithErrors error))
      | [] =>
          let validatedUserData := matchedData contexts in
          let user := non_null (params_id req) user in
          bindM (Sequelize.update user validatedUserData None) (fun _ =>
          bindM (reload user) (fun reloaded =>
          let data := convert reloaded in
          ret (res_send (docWithData data))))
      end
  end).

(** delete a specific user *)
Definition destroy (req : request) : M response :=
  bindM (getUserById (params_id req)) (fun '(user, notFound) =>
  match notFound with
  | Some notFound =>
      ret (res_status_send StatusCodes.NOT_FOUND (docWithErrors (One notFound)))
  | None =>
      let user := non_null (params_id req) user in
      bindM (Sequelize.destroy user None) (fun _ =>
      let data := convert user in
      ret (res_send (docWithData data)))
  end).

End Handlers.
End DirectUserController.

(** ** A concrete library and model, to run the handlers on *)

Module Sample.
Import Validation Sequelize JsonApi Schemas.

Fixpoint has_at (s : string) : bool :=
  match s with
  | EmptyString => false
  | String c r => (N_of_ascii c =? 64)%N || has_at r
  end.

Definition string_of (v : value) : option string :=
  match v with
  | VString s => Some s
  | _ => None
  end.

#[global] Instance validator : ValidatorJs := {|
  notEmpty v := match string_of v with
                | Some s => negb (String.eqb s "")
                | None => false
                end;
  isEmail v := match string_of v with
               | Some s => has_at s
               | None => false
               end;
  isStrongPassword v := match string_of v with
                        | Some s => (8 <=? String.length s)%nat
                        | None => false
                        end;
  normalizeEmail v := v;
  errorMessage k := match k with
                    | MustExist => "is required"
                    | MustNotExist => "must not be supplied"
                    | MustNotBeEmpty => "must not be empty"
                    | MustBeEmailShaped => "must be an email address"
                    | MustMeetPasswordStrength => "is too weak"
                    end;
  blocking k := true;
|}.

(** A model whose [password] setter stores a digest in place of the value
    submitted. *)
#[global] Instance model : UserModel := {|
  setters values := match values !! "password" with
                    | Some _ => <["password" := VString "digest"]> values
                    | None => values
                    end;
  convert_values id r :=
    VObject [("id", VString id);
             ("name", body_get r "name");
             ("screenName", body_get r "screenName");
             ("email", body_get r "email");
             ("password", body_get r "password")];
  notFoundDetail := "The requested resource was not found.";
  internalErrorDetail := "The server encountered an internal error.";
|}.

Definition empty_world : world :=
  {| rows := ∅; next_pk := 1; next_tx := 0; plan := []; entropy := [] |}.

Definition ada : gmap string value :=
  user_values (VString "k3v9x0a7b1c2d4e") (VString "ada") (VString "ada@example.org")
              (VString "digest").

Definition one_user_world : world :=
  {| rows := {[ "1" := ada ]}; next_pk := 2; next_tx := 0; plan := [];
     entropy := [] |}.

Definition valid_create : request :=
  {| params_id := "";
     body := <["screenName" := VString "grace"]>
             (<["email" := VString "grace@example.org"]>
             (<["password" := VString "Str0ng!pass"]> ∅)) |}.

Definition empty_create : request := {| params_id := ""; body := ∅ |}.

(** The payloads of scenarios A, B and D of the spec. *)
Definition empty_screenName_create : request :=
  {| params_id := "";
     body := <["screenName" := VString ""]> (body valid_create) |}.

Definition named_create : request :=
  {| params_id := "";
     body := <["name" := VString "x"]> (body valid_create) |}.

Definition update_bad_email (id : string) : request :=
  {| params_id := id; body := {[ "email" := VString "not-an-email" ]} |}.

Definition update_password (id : string) : request :=
  {| params_id := id; body := {[ "password" := VString "N3w!passw0rd" ]} |}.

End Sample.

(** ** Reading a trace *)

Module Trace.
Import Sequelize.

Definition is_write (e : event) : bool :=
  match e with
  | ECreate _ _ | EUpdate _ _ _ | EDestroy _ _ => true
  | _ => false
  end.

Definition is_transaction (e : event) : bool :=
  match e with
  | ETransaction _ => true
  | _ => false
  end.

(** The [transaction] option of a write. *)
Definition tx_of (e : event) : option nat :=
  match e with
  | ECreate _ tx | EUpdate _ _ tx | EDestroy _ tx => tx
  | _ => None
  end.

Definition writes (tr : list event) : list event := List.filter is_write tr.
Definition transactions (tr : list event) : list event :=
  List.filter is_transaction tr.

(** The writes of a trace that are not issued on the transaction open at
    that point; [open] is the transaction in progress. *)
Fixpoint outside (open : option nat) (tr : list event) : list event :=
  match tr with
  | [] => []
  | ETransaction t :: r => outside (Some t) r
  | ECommit _ :: r | ERollback _ :: r => outside None r
  | e :: r =>
      if is_write e && negb (bool_decide (is_Some open ∧ tx_of e = open))
      then e :: outside open r
      else outside open r
  end.

Section Values.
Context `{Validation.ValidatorJs} `{UserModel}.

(** The handler caught a fault and answered with the 500 document. *)
Definition responds_500 (r : result JsonApi.response) : Prop :=
  exists error,
    outcome r = Normal (JsonApi.res_status_send 500
                          (JsonApi.docWithErrors (JsonApi.internalServerError error))).

(** With respect to field [f], a run reports no error on it and writes no
    value for it. *)
Definition field_untouched (f : string) (r : result JsonApi.response) : Prop :=
  (forall resp es e, outcome r = Normal resp -> JsonApi.sent resp = JsonApi.Errors es ->
                     e ∈ es -> JsonApi.source e <> Some f) /\
  (forall id vals tx, EUpdate id vals tx ∈ trace r -> vals !! f = None).

(** With respect to field [f], a run reports no error on it and every
    [user.update] it issues is given [f] as a property whose value is
    [undefined]. *)
Definition field_given_undefined (f : string) (r : result JsonApi.response) : Prop :=
  (forall resp es e, outcome r = Normal resp -> JsonApi.sent resp = JsonApi.Errors es ->
                     e ∈ es -> JsonApi.source e <> Some f) /\
  (forall id vals tx, EUpdate id vals tx ∈ trace r -> vals !! f = Some VUndefined).

(** The argument [create] gives [User.create]. *)
Definition create_values (req : JsonApi.request) (w : world) : gmap string value :=
  let data := Validation.matchedData
                (Validation.runAllValidations
                   (Validation.checkBodySchema Schemas.create_schema)
                   (JsonApi.body req)) in
  Schemas.user_values (VString (alphaNumeric_from 15 (entropy w)).1)
    (Validation.body_get data "screenName") (Validation.body_get data "email")
    (Validation.body_get data "password").

(** The argument [update] gives [user.update]: the sanitized data as
    [matchedData] returns it, undefined values included. *)
Definition update_values (req : JsonApi.request) : gmap string value :=
  Validation.matchedData
    (Validation.runAllValidations Schemas.update_validations (JsonApi.body req)).

Definition create_failures (req : JsonApi.request) : list Validation.FieldFailure :=
  Validation.validationResult
    (Validation.runAllValidations
       (Validation.checkBodySchema Schemas.create_schema) (JsonApi.body req)).

Definition update_failures (req : JsonApi.request) : list Validation.FieldFailure :=
  Validation.validationResult
    (Validation.runAllValidations Schemas.update_validations (JsonApi.body req)).

End Values.

End Trace.

(** ** The shape of a value, as serialization sees it *)

Module Shape.

(** The value holds, at any depth of its arrays and objects, a [BigInt] or
    a reference back to an object that contains it. *)
Fixpoint unserializable (v : value) : bool :=
  match v with
  | VBigInt _ | VCycle _ => true
  | VArray items => existsb unserializable items
  | VObject props => existsb (fun kv => unserializable kv.2) props
  | _ => false
  end.

(** [undefined], a symbol or a function: the values [JSON.stringify] answers
    [undefined] for. *)
Definition renders_undefined (v : value) : bool :=
  match v with
  | VUndefined | VSymbol _ | VFunction => true
  | _ => false
  end.

(** The loops of [SerializeJSONProperty] over the elements of an array and
    over the properties of an object, on their own. *)
Definition serialize_elements (f : value -> completion (option string))
  : list value -> completion (list string) :=
  fix elements (l : list value) : completion (list string) :=
    match l with
    | [] => Normal []
    | x :: r =>
        bind (f x) (fun sx =>
        bind (elements r) (fun sr =>
        Normal (default "null" sx :: sr)))
    end.

Definition serialize_members (f : value -> completion (option string))
  : list (string * value) -> completion (list string) :=
  fix members (l : list (string * value)) : completion (list string) :=
    match l with
    | [] => Normal []
    | (k, x) :: r =>
        bind (f x) (fun sx =>
        bind (members r) (fun sr =>
        Normal match sx with
               | Some t => (QuoteJSONString k ++ ":" ++ t) :: sr
               | None => sr
               end))
    end.

(** What [JSON.stringify] does with a value, by its shape. *)
Definition stringify_by_shape (v : value) : Prop :=
  if unserializable v
  then exists e, JSON_stringify v = Throw e
  else exists t, JSON_stringify v = Normal t /\
                 (t = None <-> renders_undefined v = true).

(** Induction on a value together with the values inside it. *)
Section Induction.
Variable P : value -> Prop.
Hypothesis Hundefined : P VUndefined.
Hypothesis Hnull : P VNull.
Hypothesis Hbool : forall b, P (VBool b).
Hypothesis Hnumber : forall n, P (VNumber n).
Hypothesis Hstring : forall s, P (VString s).
Hypothesis Hbigint : forall z, P (VBigInt z).
Hypothesis Hsymbol : forall d, P (VSymbol d).
Hypothesis Hfunction : P VFunction.
Hypothesis Harray : forall items, List.Forall P items -> P (VArray items).
Hypothesis Hobject :
  forall props, List.Forall (fun kv => P kv.2) props -> P (VObject props).
Hypothesis Herror : forall n m, P (VError n m).
Hypothesis Hcycle : forall up, P (VCycle up).

Fixpoint value_nested_ind (v : value) : P v :=
  match v with
  | VUndefined => Hundefined
  | VNull => Hnull
  | VBool b => Hbool b
  | VNumber n => Hnumber n
  | VString s => Hstring s
  | VBigInt z => Hbigint z
  | VSymbol d => Hsymbol d
  | VFunction => Hfunction
  | VArray items =>
      Harray items
        ((fix all (l : list value) : List.Forall P l :=
            match l with
            | [] => @List.Forall_nil _ P
            | x :: r => @List.Forall_cons _ P x r (value_nested_ind x) (all r)
            end) items)
  | VObject props =>
      Hobject props
        ((fix all (l : list (string * value))
            : List.Forall (fun kv => P kv.2) l :=
            match l with
            | [] => @List.Forall_nil _ (fun kv => P kv.2)
            | kv :: r =>
                @List.Forall_cons _ (fun kv => P kv.2) kv r
                  (value_nested_ind kv.2) (all r)
            end) props)
  | VError n m => Herror n m
  | VCycle up => Hcycle up
  end.

End Induction.

End Shape.

(** ** Reading back the text of a value *)

Module Reading.
Import Shape.

(** The text after a value inside a JSON text: nothing, or a comma or a
    closing bracket. *)
Definition stops (rest : string) : bool :=
  match rest with
  | EmptyString => true
  | String c _ =>
      let n := N_of_ascii c in ((n =? 44) || (n =? 93) || (n =? 125))%N
  end.

(** A text a value can start with: not white space, not a closing
    bracket. *)
Definition value_start (s : string) : bool :=
  match s with
  | EmptyString => false
  | String c _ => negb (is_ws c) && negb (N_of_ascii c =? 93)%N
  end.

(** A property [JSON.stringify] writes out: its value is not rendered as
    [undefined]. *)
Definition present (kv : string * value) : bool := negb (renders_undefined kv.2).

(** Fuel enough for the parser to read the text of [v]: one unit for each
    element or written property on the way down, and what the deepest of
    them needs. *)
Fixpoint need (v : value) : nat :=
  match v with
  | VArray items => S (length items + foldr Nat.max 0%nat (map need items))
  | VObject props =>
      S (length (List.filter present props)
         + foldr Nat.max 0%nat (map (fun kv => need kv.2) props))
  | _ => 1
  end.

(** What the parser makes of a text [s] that needs fuel [n]. *)
Definition parses (n : nat) (s : string) : Prop :=
  value_start s = true /\ (n <= String.length s)%nat /\
  forall rest fuel, stops rest = true -> (n <= fuel)%nat ->
    exists j, parse_value fuel (s ++ rest) = Some (j, rest).

(** The text of [v], when it has one, is read back by the parser. *)
Definition reads_back (v : value) : Prop :=
  forall s, JSON_stringify v = Normal (Some s) -> parses (need v) s.

(** A member text: a quoted key, a colon and a value text. *)
Definition member_parses (n : nat) (p : string) : Prop :=
  (S n <= String.length p)%nat /\
  forall rest fuel, stops rest = true -> (n <= fuel)%nat ->
    exists r0 k r2 j,
      p ++ rest = String (ascii_of_N 34) r0 /\
      parse_string r0 = Some (k, String ":" r2) /\
      parse_value fuel r2 = Some (j, rest).

End Reading.

(** ** Comparing the two controller sources *)

Module Compare.
Import Sequelize JsonApi.

Section Compare.
Context `{UserModel}.

(** Of a handler of src/controllers/userController.ts and its counterpart
    in the direct controller, run on [w]: the first answers the 500
    document made from [e], the second rejects with [e], and both leave the
    table of [w]. *)
Definition caught_or_escapes (e : value) (w : world)
    (rr : result response * result response) : Prop :=
  outcome rr.1 = Normal (res_status_send 500
                           (docWithErrors (internalServerError e))) /\
  outcome rr.2 = Throw e /\
  rows (final rr.1) = rows w /\ rows (final rr.2) = rows w.

(** The two runs answer alike and leave the same table, key counter and
    random source. *)
Definition same_answer (rr : result response * result response) : Prop :=
  outcome rr.1 = outcome rr.2 /\
  rows (final rr.1) = rows (final rr.2) /\
  next_pk (final rr.1) = next_pk (final rr.2) /\
  entropy (final rr.1) = entropy (final rr.2).

(** The run answers with this status code. *)
Definition answers (r : result response) (code : Z) : Prop :=
  exists resp, outcome r = Normal resp /\ statusCode resp = code.

End Compare.
End Compare.

(** * Properties *)

(** ** The internal-error class *)

Module InternalServerErrorFacts.
Import InternalServerError.

(** The check itself never rejects: whatever [JSON.stringify] or
    [JSON.parse] throws is caught. *)
Lemma isSerializable_returns (v : value) :
  isSerializable v = Normal true \/ isSerializable v = Normal false.
Proof.
  unfold isSerializable.
  destruct (JSON_stringify v) as [text|e]; simpl; [|by right].
  destruct (JSON_parse text); simpl; [by left|by right].
Qed.

Lemma JSON_parse_undefined : exists e, JSON_parse None = Throw e.
Proof. eexists. vm_compute. reflexivity. Qed.

(** A value that passes the check has a JSON text. *)
Lemma isSerializable_true (v : value) :
  isSerializable v = Normal true ->
  exists s, JSON_stringify v = Normal (Some s).
Proof.
  unfold isSerializable.
  destruct (JSON_stringify v) as [[s|]|e]; cbn [bind try_catch];
    [eauto| |discriminate].
  destruct JSON_parse_undefined as [e ->]. discriminate.
Qed.

Example stringify_array :
  JSON_stringify (VArray [VNumber (NInt (-12) I); VUndefined; VNumber NNaN; VBool true])
  = Normal (Some "[-12,null,null,true]").
Proof. reflexivity. Qed.

Example serializable_object :
  isSerializable (VObject [("code", VNumber (NInt 7 I)); ("hint", VFunction);
                           ("tags", VArray [VString "a\b"; VNull])])
  = Normal true.
Proof. vm_compute. reflexivity. Qed.

Example circular_is_not_serializable :
  isSerializable (VObject [("self", VCycle 0)]) = Normal false /\
  isSerializable (VArray [VBigInt 1]) = Normal false /\
  isSerializable VUndefined = Normal false /\
  isSerializable VFunction = Normal false.
Proof. repeat split; vm_compute; reflexivity. Qed.

Example detail_property_of_circular :
  detail_property (VObject [("self", VCycle 0)]) = VString generic_detail /\
  detail_property (VArray [VNumber (NInt 1 I); VNull]) = VString "[1,null]".
Proof. split; vm_compute; reflexivity. Qed.

(** [toJSON] computes the [detail] property from the fault, and returns an
    entry built from [message]. *)
Lemma toJSON_new (F : value) :
  toJSON (new F) = Normal (set_detail (new F) (detail_property F), the_entry).
Proof.
  unfold toJSON, detail_property.
  destruct (instanceof_Error (error (new F))) eqn:HE.
  - destruct F; try discriminate. reflexivity.
  - assert (HF : match F with VError _ _ => False | _ => True end)
      by (destruct F; try exact I; discriminate).
    cbn [error new].
    destruct (isSerializable_returns F) as [Hs|Hs]; rewrite Hs; cbn [bind].
    + destruct (isSerializable_true F Hs) as [s ->]. cbn.
      destruct F; try reflexivity. contradiction.
    + destruct F; try reflexivity. contradiction.
Qed.

(** C1 (evaluated on the code). For the fault [new Error("boom")] the claim
    makes the entry's detail the fault's string form, "Error: boom". The
    code stores that string in the instance's [detail] property, and the
    entry it returns carries [message], the empty string. *)
Theorem toJSON_detail_of_error_fault :
  exists o e,
    toJSON (new (VError "Error" "boom")) = Normal (o, e) /\
    detail o = VString "Error: boom" /\
    entry_detail e = VString "" /\
    entry_detail e <> VString "Error: boom".
Proof.
  eexists _, _. rewrite toJSON_new. repeat split. discriminate.
Qed.

(** C2 (as stated, refuted). The claim makes the entry's status the number
    500 and its title "Internal Server Error"; for the fault [null] the
    entry has neither. *)
Lemma entry_status_is_not_the_number_500 :
  ~ (exists o e,
       toJSON (new VNull) = Normal (o, e) /\
       entry_status e = VNumber (NInt 500 I) /\
       entry_title e = VString "Internal Server Error").
Proof.
  intros (o & e & Hrun & Hstatus & _).
  rewrite toJSON_new in Hrun. injection Hrun as _ <-. discriminate.
Qed.

(** C2 (amended). For every fault value F, the entry produced for an
    InternalError from F has the status field "Internal Server Error", the
    reason phrase of the numeric code 500 the instance holds in
    [statusCode], and the title "InternalServerError", the name of the
    error. *)
Theorem entry_status_is_the_reason_phrase (F : value) :
  exists o e,
    toJSON (new F) = Normal (o, e) /\
    statusCode o = 500 /\
    getReasonPhrase (statusCode o) = Normal "Internal Server Error" /\
    entry_status e = VString "Internal Server Error" /\
    entry_title e = VString "InternalServerError".
Proof.
  eexists _, _. rewrite toJSON_new. repeat split.
Qed.

(** C3. For every fault value F, circular and non-serializable ones
    included, serializing [InternalServerError(F)] returns an entry and
    does not throw; the serialization check answers a boolean for every
    value. *)
Theorem toJSON_total (F : value) :
  (exists o e, toJSON (new F) = Normal (o, e)) /\
  (exists b, isSerializable F = Normal b).
Proof.
  split.
  - eexists _, _. apply toJSON_new.
  - destruct (isSerializable_returns F); eauto.
Qed.

(** C9. For any two fault values F1 and F2 the entries serialized from
    [InternalServerError(F1)] and [InternalServerError(F2)] have the same
    detail: it is the [message] of the instance, which the constructor
    leaves empty, whatever [detail] property was computed. The two entries
    are equal, so nothing of the fault shows in them. *)
Theorem toJSON_detail_independent_of_fault (F1 F2 : value) :
  exists o1 e1 o2 e2,
    toJSON (new F1) = Normal (o1, e1) /\
    toJSON (new F2) = Normal (o2, e2) /\
    entry_detail e1 = entry_detail e2 /\
    entry_detail e1 = VString (message (new F1)) /\
    message (new F1) = "" /\
    e1 = e2.
Proof.
  eexists _, _, _, _. rewrite !toJSON_new. repeat split.
Qed.

End InternalServerErrorFacts.

(** ** Validation *)

Module ValidationFacts.
Import Validation Schemas.

Example required_fields_are :
  required_fields = ["screenName"; "email"; "password"].
Proof. reflexivity. Qed.

Example optional_fields_are :
  optional_fields = ["name"; "screenName"; "email"; "password"].
Proof. reflexivity. Qed.

Section Facts.
Context `{ValidatorJs}.

Lemma dedupe_keeps (x : FieldFailure) (l : list FieldFailure) :
  x ∈ l -> x ∈ dedupe l.
Proof.
  induction l as [|a l IH]; intros Hx; [done|].
  cbn [dedupe]. destruct (decide (x = a)) as [->|Hne]; [by left|].
  right. apply list_elem_of_filter. split; [done|].
  apply elem_of_cons in Hx as [?|?]; [done|auto].
Qed.

Lemma dedupe_sound (x : FieldFailure) (l : list FieldFailure) :
  x ∈ dedupe l -> x ∈ l.
Proof.
  induction l as [|a l IH]; [done|].
  cbn [dedupe]. intros [->|Hx]%elem_of_cons; [by left|].
  right. apply list_elem_of_filter in Hx as [_ Hx]. auto.
Qed.

(** A failure reported comes from one of the chains, which ran and is on
    the failure's field. *)
Lemma validationResult_origin (chains : list chain) (body : gmap string value)
    (x : FieldFailure) :
  x ∈ validationResult (runAllValidations chains body) ->
  exists c, c ∈ chains /\ field c = ff_field x /\ ctx_failed (run_chain body c) <> [].
Proof.
  unfold validationResult, runAllValidations. intros Hx%dedupe_sound.
  apply list_elem_of_In, in_concat in Hx as (fs & Hfs & Hx).
  apply in_map_iff in Hfs as (ctx & <- & Hctx).
  apply in_map_iff in Hctx as (c & <- & Hc).
  unfold failures_of in Hx. apply in_map_iff in Hx as (k & <- & Hk).
  exists c. split; [by apply list_elem_of_In|]. split.
  - unfold run_chain. cbn. by repeat case_match.
  - intros Hnil. rewrite Hnil in Hk. destruct Hk.
Qed.

(** A failed check of a chain is reported, on the chain's field. *)
Lemma validationResult_reports (chains : list chain) (body : gmap string value)
    (c : chain) (k : kind) :
  c ∈ chains -> k ∈ ctx_failed (run_chain body c) ->
  {| ff_field := field c; ff_message := errorMessage k |}
    ∈ validationResult (runAllValidations chains body).
Proof.
  intros Hc Hk. apply dedupe_keeps, list_elem_of_In, in_concat.
  exists (failures_of (run_chain body c)). split.
  - apply in_map, in_map. by apply list_elem_of_In.
  - unfold failures_of. apply in_map_iff. exists k. split.
    + f_equal. unfold run_chain. by repeat case_match.
    + by apply list_elem_of_In.
Qed.

(** A guarded chain on a field the payload omits does nothing. *)
Lemma run_chain_omitted (body : gmap string value) (c : chain) :
  only_if_present c = true -> body !! field c = None ->
  run_chain body c =
    {| ctx_field := field c; ctx_failed := []; ctx_value := VUndefined |}.
Proof.
  intros Hg Hb. unfold run_chain, body_get. rewrite Hg, Hb. reflexivity.
Qed.


(** A field of the sanitized data is the field of a context on which no
    failure is recorded, and has the value that context holds. *)
Lemma matchedData_origin (cs : list context) (f : string) (v : value) :
  matchedData cs !! f = Some v ->
  exists c, c ∈ cs /\ ctx_field c = f /\ ctx_failed c = [] /\ ctx_value c = v.
Proof.
  unfold matchedData.
  assert (Hsub : forall c, In c (List.filter valid cs) ->
                           c ∈ cs /\ ctx_failed c = []).
  { intros c [Hc Hv]%filter_In. split; [by apply list_elem_of_In|].
    unfold valid in Hv. by destruct (ctx_failed c). }
  revert Hsub. generalize (List.filter valid cs). intros l.
  induction l as [|x l IH] using rev_ind; intros Hsub.
  - cbn. by rewrite lookup_empty.
  - rewrite foldl_snoc. destruct (decide (ctx_field x = f)) as [<-|Hne].
    + rewrite lookup_insert_eq. intros [= <-].
      destruct (Hsub x) as [Hx Hv]; [apply in_or_app; right; by left|].
      by exists x.
    + rewrite lookup_insert_ne by done. apply IH.
      intros c Hc. apply Hsub, in_or_app. by left.
Qed.

(** Every field with a context on which no failure is recorded is in the
    sanitized data, whatever its value. *)
Lemma matchedData_holds (cs : list context) (c : context) :
  c ∈ cs -> ctx_failed c = [] -> is_Some (matchedData cs !! ctx_field c).
Proof.
  intros Hc Hv. unfold matchedData.
  assert (Hin : In c (List.filter valid cs)).
  { apply filter_In. split; [by apply list_elem_of_In|].
    unfold valid. by rewrite Hv. }
  revert Hin. generalize (List.filter valid cs). intros l.
  induction l as [|x l IH] using rev_ind; [done|].
  intros [Hin|[->|[]]]%in_app_or; rewrite foldl_snoc.
  - destruct (decide (ctx_field x = ctx_field c)) as [->|Hne].
    + rewrite lookup_insert_eq. eauto.
    + rewrite lookup_insert_ne by done. auto.
  - rewrite lookup_insert_eq. eauto.
Qed.

End Facts.
End ValidationFacts.

(** ** Running the handlers *)

Import Validation Sequelize JsonApi Schemas Trace.

Ltac simp_in Hr :=
  cbn -[omit_undefined alphaNumeric_from validationResult runAllValidations matchedData
        checkBodySchema create_schema update_validations user_values next_fault
        lookup insert alter delete union internalServerError] in Hr.

(** One step of a run: case on the fault the next store call meets, or on
    the row a lookup finds. *)
Ltac step_in Hr :=
  match type of Hr with
  | context [next_fault ?x] =>
      lazymatch x with
      | context [next_fault _] => fail
      | _ => destruct (next_fault x) as [?e|] eqn:?
      end
  | context [alter ?f ?k ?m !! ?k] =>
      rewrite (lookup_alter_eq f m k) in Hr;
      match goal with E : m !! k = _ |- _ => rewrite E in Hr end
  | context [@lookup _ _ (gmap _ _) _ ?k ?m] =>
      lazymatch m with
      | context [next_fault _] => fail
      | _ => destruct (m !! k) eqn:?
      end
  end; simp_in Hr.

Ltac unfold_store_in Hr :=
  unfold reload in Hr;
  unfold try_or_return, transaction, bindM, alphaNumeric, findByPk, findAll,
    Sequelize.create, Sequelize.update, Sequelize.destroy,
    store_call, ret, throw in Hr.

Ltac leaf :=
  first [ reflexivity | eassumption | discriminate
        | apply lookup_insert_eq | apply lookup_delete_eq
        | cbn [rows after_call with_rows with_plan];
          rewrite lookup_alter_eq;
          match goal with E : _ !! _ = Some _ |- _ => rewrite E end;
          reflexivity ].

Ltac close :=
  repeat first [split | eexists];
  first [ leaf | left; solve [close] | right; solve [close] ].

Ltac branches :=
  first [ solve [close] | left; branches | right; branches ].

Module UserControllerFacts.
Import UserController.

Section Facts.
Context `{ValidatorJs} `{UserModel}.

(** Every run of [create]: rejected by validation; or the transaction does
    not open; or the write or the commit fails and is rolled back; or the
    row is committed and returned. *)
Lemma create_cases (req : request) (w : world) :
  let r := create req w in
  let t := next_tx w in
  (create_failures req <> [] /\
   outcome r = Normal (res_status_send 422
                         (docWithErrors (validationError (create_failures req)))) /\
   trace r = []) \/
  (create_failures req = [] /\ responds_500 r /\ trace r = [ETransaction t]) \/
  (create_failures req = [] /\ responds_500 r /\
   trace r = [ETransaction t; ECreate (create_values req w) (Some t); ERollback t]) \/
  (create_failures req = [] /\
   (exists u, outcome r = Normal (res_status_send 201 (Data (convert u))) /\
              rows (final r) !! pk u = Some (dataValues u) /\
              dataValues u = setters (create_values req w)) /\
   trace r = [ETransaction t; ECreate (create_values req w) (Some t); ECommit t]).
Proof.
  intros r t. subst t. unfold create_values, create_failures, responds_500.
  remember r as r' eqn:Hr. subst r.
  unfold create, respond_500 in Hr.
  destruct (validationResult _) eqn:Hv.
  - unfold_store_in Hr. simp_in Hr. repeat step_in Hr.
    all: subst r'; cbn [outcome final trace]; right; branches.
  - subst r'. left. close.
Qed.

(** Every run of [update]. *)
Lemma update_cases (req : request) (w : world) :
  let r := update req w in
  let id := params_id req in
  let t := next_tx w in
  (is_Some (next_fault w) /\ responds_500 r /\ trace r = [EFindByPk id]) \/
  (next_fault w = None /\ rows w !! id = None /\
   outcome r = Normal (res_status_send 404 (Errors [resourceNotFound])) /\
   trace r = [EFindByPk id]) \/
  (exists old, next_fault w = None /\ rows w !! id = Some old /\
     ((update_failures req <> [] /\
       outcome r = Normal (res_status_send 422
                             (docWithErrors (validationError (update_failures req)))) /\
       trace r = [EFindByPk id]) \/
      (update_failures req = [] /\ responds_500 r /\
       trace r = [EFindByPk id; ETransaction t]) \/
      (update_failures req = [] /\ responds_500 r /\
       trace r = [EFindByPk id; ETransaction t;
                  EUpdate id (update_values req) (Some t); ERollback t]) \/
      (update_failures req = [] /\
       trace r = [EFindByPk id; ETransaction t;
                  EUpdate id (update_values req) (Some t); ECommit t; EReload id] /\
       rows (final r) !! id = Some (setters (omit_undefined (update_values req)) ∪ old) /\
       ((exists e, outcome r = Throw e) \/
        outcome r = Normal (res_send
          (Data (convert_values id (setters (omit_undefined (update_values req)) ∪ old)))))))).
Proof.
  intros r id t. subst id t. unfold update_values, update_failures, responds_500.
  remember r as r' eqn:Hr. subst r.
  unfold update, getUserById, respond_500 in Hr.
  unfold_store_in Hr. simp_in Hr.
  step_in Hr; [subst r'; cbn [outcome final trace]; left; close|].
  step_in Hr; [|subst r'; cbn [outcome final trace]; right; left; close].
  right; right. eexists. do 2 (split; [eassumption || reflexivity|]).
  destruct (validationResult _) eqn:Hv.
  - simp_in Hr. repeat step_in Hr.
    all: subst r'; cbn [outcome final trace]; right; branches.
  - subst r'. left. close.
Qed.

(** Every run of [destroy]. *)
Lemma destroy_cases (req : request) (w : world) :
  let r := destroy req w in
  let id := params_id req in
  let t := next_tx w in
  (is_Some (next_fault w) /\ responds_500 r /\ trace r = [EFindByPk id]) \/
  (next_fault w = None /\ rows w !! id = None /\
   outcome r = Normal (res_status_send 404 (Errors [resourceNotFound])) /\
   trace r = [EFindByPk id]) \/
  (exists old, next_fault w = None /\ rows w !! id = Some old /\
     ((responds_500 r /\ trace r = [EFindByPk id; ETransaction t]) \/
      (responds_500 r /\
       trace r = [EFindByPk id; ETransaction t; EDestroy id (Some t); ERollback t]) \/
      (outcome r = Normal (res_send (Data (convert_values id old))) /\
       rows (final r) !! id = None /\
       trace r = [EFindByPk id; ETransaction t; EDestroy id (Some t); ECommit t]))).
Proof.
  intros r id t. subst id t. unfold responds_500.
  remember r as r' eqn:Hr. subst r.
  unfold destroy, getUserById, respond_500 in Hr.
  unfold_store_in Hr. simp_in Hr.
  step_in Hr; [subst r'; cbn [outcome final trace]; left; close|].
  step_in Hr; [|subst r'; cbn [outcome final trace]; right; left; close].
  right; right. eexists. do 2 (split; [eassumption || reflexivity|]).
  repeat step_in Hr.
  all: subst r'; cbn [outcome final trace]; branches.
Qed.

End Facts.
End UserControllerFacts.

Module DirectUserControllerFacts.
Import DirectUserController.

Section Facts.
Context `{ValidatorJs} `{UserModel}.

(** Every run of [create]: rejected by validation, or the write is issued
    with no transaction and either rejects, unhandled, or returns the row. *)
Lemma direct_create_cases (req : request) (w : world) :
  let r := create req w in
  (create_failures req <> [] /\
   outcome r = Normal (res_status_send 422
                         (docWithErrors (validationError (create_failures req)))) /\
   trace r = []) \/
  (create_failures req = [] /\
   trace r = [ECreate (create_values req w) None] /\
   ((exists e, outcome r = Throw e) \/
    (exists u, outcome r = Normal (res_status_send 201 (Data (convert u))) /\
               rows (final r) !! pk u = Some (dataValues u) /\
               dataValues u = setters (create_values req w)))).
Proof.
  intros r. unfold create_values, create_failures.
  remember r as r' eqn:Hr. subst r.
  unfold create in Hr.
  destruct (validationResult _) eqn:Hv.
  - unfold_store_in Hr. simp_in Hr. repeat step_in Hr.
    all: subst r'; cbn [outcome final trace]; right; close.
  - subst r'. left. close.
Qed.

(** Every run of [update]. *)
Lemma direct_update_cases (req : request) (w : world) :
  let r := update req w in
  let id := params_id req in
  (is_Some (next_fault w) /\ (exists e, outcome r = Throw e) /\
   trace r = [EFindByPk id]) \/
  (next_fault w = None /\ rows w !! id = None /\
   outcome r = Normal (res_status_send 404 (Errors [resourceNotFound])) /\
   trace r = [EFindByPk id]) \/
  (exists old, next_fault w = None /\ rows w !! id = Some old /\
     ((update_failures req <> [] /\
       outcome r = Normal (res_status_send 422
                             (docWithErrors (validationError (update_failures req)))) /\
       trace r = [EFindByPk id]) \/
      (update_failures req = [] /\ (exists e, outcome r = Throw e) /\
       trace r = [EFindByPk id; EUpdate id (update_values req) None]) \/
      (update_failures req = [] /\
       trace r = [EFindByPk id; EUpdate id (update_values req) None; EReload id] /\
       rows (final r) !! id = Some (setters (omit_undefined (update_values req)) ∪ old) /\
       ((exists e, outcome r = Throw e) \/
        outcome r = Normal (res_send
          (Data (convert_values id (setters (omit_undefined (update_values req)) ∪ old)))))))).
Proof.
  intros r id. subst id. unfold update_values, update_failures.
  remember r as r' eqn:Hr. subst r.
  unfold update, getUserById, non_null in Hr.
  unfold_store_in Hr. simp_in Hr.
  step_in Hr; [subst r'; cbn [outcome final trace]; left; close|].
  step_in Hr; [|subst r'; cbn [outcome final trace]; right; left; close].
  right; right. eexists. do 2 (split; [eassumption || reflexivity|]).
  destruct (validationResult _) eqn:Hv.
  - simp_in Hr. repeat step_in Hr.
    all: subst r'; cbn [outcome final trace]; right; branches.
  - subst r'. left. close.
Qed.

(** Every run of [destroy]. *)
Lemma direct_destroy_cases (req : request) (w : world) :
  let r := destroy req w in
  let id := params_id req in
  (is_Some (next_fault w) /\ (exists e, outcome r = Throw e) /\
   trace r = [EFindByPk id]) \/
  (next_fault w = None /\ rows w !! id = None /\
   outcome r = Normal (res_status_send 404 (Errors [resourceNotFound])) /\
   trace r = [EFindByPk id]) \/
  (exists old, next_fault w = None /\ rows w !! id = Some old /\
     trace r = [EFindByPk id; EDestroy id None] /\
     ((exists e, outcome r = Throw e) \/
      (outcome r = Normal (res_send (Data (convert_values id old))) /\
       rows (final r) !! id = None))).
Proof.
  intros r id. subst id.
  remember r as r' eqn:Hr. subst r.
  unfold destroy, getUserById, non_null in Hr.
  unfold_store_in Hr. simp_in Hr.
  step_in Hr; [subst r'; cbn [outcome final trace]; left; close|].
  step_in Hr; [|subst r'; cbn [outcome final trace]; right; left; close].
  right; right. eexists. do 2 (split; [eassumption || reflexivity|]).
  repeat step_in Hr.
  all: subst r'; cbn [outcome final trace]; close.
Qed.

End Facts.
End DirectUserControllerFacts.

(** ** The endpoints *)

Module EndpointFacts.

Section Facts.
Context `{ValidatorJs} `{UserModel}.




(** No failure is reported on a field the update payload omits. *)
Lemma update_failures_omitted (req : request) (f : string) (x : FieldFailure) :
  body req !! f = None -> x ∈ update_failures req -> ff_field x <> f.
Proof.
  intros Hb Hx Hf. unfold update_failures in Hx.
  apply ValidationFacts.validationResult_origin in Hx as (c & Hc & Hfield & Hfailed).
  apply Hfailed. rewrite ValidationFacts.run_chain_omitted; [done| |congruence].
  cbn in Hc. repeat (apply elem_of_cons in Hc as [->|Hc]); try done.
  by apply elem_of_nil in Hc.
Qed.

(** What the chains of an update leave for a field the payload omits: no
    failure, and the value [undefined]. *)
Lemma update_context_omitted (req : request) (c : context) :
  c ∈ runAllValidations update_validations (body req) ->
  body req !! ctx_field c = None ->
  ctx_failed c = [] /\ ctx_value c = VUndefined.
Proof.
  intros Hc Hb. unfold runAllValidations in Hc.
  apply list_elem_of_In, in_map_iff in Hc as (ch & <- & Hch).
  assert (Hf : ctx_field (run_chain (body req) ch) = field ch)
    by (unfold run_chain; by repeat case_match).
  rewrite Hf in Hb. rewrite ValidationFacts.run_chain_omitted; [done| |done].
  cbn in Hch. by repeat (destruct Hch as [<-|Hch]; [done|]).
Qed.

(** An omitted field, when the sanitized update data has it, has the value
    [undefined] there. *)
Lemma update_values_undefined (req : request) (f : string) (v : value) :
  body req !! f = None -> update_values req !! f = Some v -> v = VUndefined.
Proof.
  intros Hb Hv. unfold update_values in Hv.
  apply ValidationFacts.matchedData_origin in Hv as (c & Hc & <- & _ & <-).
  by apply (update_context_omitted req c).
Qed.

(** The sanitized update data has each of the four fields the payload
    omits, with the value [undefined]. *)
Lemma update_values_omitted (req : request) (f : string) :
  f ∈ optional_fields -> body req !! f = None ->
  update_values req !! f = Some VUndefined.
Proof.
  intros Hf Hb.
  assert (Hc : exists c, c ∈ runAllValidations update_validations (body req) /\
                         ctx_field c = f).
  { unfold optional_fields in Hf.
    apply list_elem_of_In, in_map_iff in Hf as (ch & <- & Hch).
    exists (run_chain (body req) ch). split.
    - apply list_elem_of_In, in_map, Hch.
    - unfold run_chain. by repeat case_match. }
  destruct Hc as (c & Hc & <-).
  destruct (update_context_omitted req c Hc Hb) as [Hv _].
  destruct (ValidationFacts.matchedData_holds _ c Hc Hv) as [v Hsome].
  fold (update_values req) in Hsome. rewrite Hsome. f_equal.
  by apply (update_values_undefined req (ctx_field c)).
Qed.

(** Of the sanitized update data, [user.update] sets no field the payload
    omits. *)
Lemma update_given_omitted (req : request) (f : string) :
  body req !! f = None -> omit_undefined (update_values req) !! f = None.
Proof.
  intros Hb. unfold omit_undefined. rewrite lookup_omap.
  destruct (update_values req !! f) as [v|] eqn:Hv; [|done].
  by rewrite (update_values_undefined req f v Hb Hv).
Qed.

Lemma errors_of_update_omitted (req : request) (f : string)
    (es : list ErrorObject) (e : ErrorObject) :
  body req !! f = None ->
  docWithErrors (validationError (update_failures req)) = Errors es ->
  e ∈ es -> source e <> Some f.
Proof.
  intros Hb [= <-] He Hs.
  apply list_elem_of_In, in_map_iff in He as (x & <- & Hx).
  cbn in Hs. injection Hs as Hs.
  by apply (update_failures_omitted req f x Hb); [apply list_elem_of_In|].
Qed.

(** Membership in a trace that is written out. *)
Ltac in_trace H :=
  repeat (apply elem_of_cons in H as [H|H]; [try discriminate H|]);
  try (by apply elem_of_nil in H).

Ltac same_response :=
  match goal with
  | Ho : outcome ?r = Normal ?resp, Ho' : outcome ?r = _ |- _ =>
      rewrite Ho' in Ho; first [discriminate Ho | injection Ho as <-]
  end.

Lemma update_given_undefined (req : request) (w : world) (f : string) :
  f ∈ optional_fields -> body req !! f = None ->
  field_given_undefined f (UserController.update req w).
Proof.
  intros Hf Hb. pose proof (update_values_omitted req f Hf Hb) as Hv. split.
  - intros resp es e Ho Hs He.
    destruct (UserControllerFacts.update_cases req w)
      as [(_ & [err Ho'] & _)|[(_ & _ & Ho' & _)|(old & _ & _ &
           [(_ & Ho' & _)|[(_ & [err Ho'] & _)|[(_ & [err Ho'] & _)|
            (_ & _ & _ & [[err Ho']|Ho'])]]])]]; same_response.
    all: try (injection Hs as <-; apply list_elem_of_singleton in He as ->; done).
    + by apply (errors_of_update_omitted req f es e).
    + discriminate Hs.
  - intros id vals tx Hin.
    destruct (UserControllerFacts.update_cases req w)
      as [(_ & _ & Ht)|[(_ & _ & _ & Ht)|(old & _ & _ &
           [(_ & _ & Ht)|[(_ & _ & Ht)|[(_ & _ & Ht)|(_ & Ht & _)]]])]];
      rewrite Ht in Hin; in_trace Hin.
    all: by injection Hin as -> -> ->.
Qed.

Lemma direct_update_given_undefined (req : request) (w : world) (f : string) :
  f ∈ optional_fields -> body req !! f = None ->
  field_given_undefined f (DirectUserController.update req w).
Proof.
  intros Hf Hb. pose proof (update_values_omitted req f Hf Hb) as Hv. split.
  - intros resp es e Ho Hs He.
    destruct (DirectUserControllerFacts.direct_update_cases req w)
      as [(_ & [err Ho'] & _)|[(_ & _ & Ho' & _)|(old & _ & _ &
           [(_ & Ho' & _)|[(_ & [err Ho'] & _)|
            (_ & _ & _ & [[err Ho']|Ho'])]])]]; same_response.
    all: try (injection Hs as <-; apply list_elem_of_singleton in He as ->; done).
    + by apply (errors_of_update_omitted req f es e).
    + discriminate Hs.
  - intros id vals tx Hin.
    destruct (DirectUserControllerFacts.direct_update_cases req w)
      as [(_ & _ & Ht)|[(_ & _ & _ & Ht)|(old & _ & _ &
           [(_ & _ & Ht)|[(_ & _ & Ht)|(_ & Ht & _)]])]];
      rewrite Ht in Hin; in_trace Hin.
    all: by injection Hin as -> -> ->.
Qed.

(** C6 (amended). For every update payload that omits an optional field
    (name, screenName, email or password), validation reports no failure on
    that field, the sanitized data holds it as a property whose value is
    [undefined], and in both controllers no error entry of the answer is on
    that field and the values given to the store write hold it with the
    value [undefined] and no other. *)
Theorem update_gives_omitted_field_as_undefined (req : request) (w : world)
    (f : string) :
  f ∈ optional_fields -> body req !! f = None ->
  (forall x, x ∈ update_failures req -> ff_field x <> f) /\
  update_values req !! f = Some VUndefined /\
  field_given_undefined f (UserController.update req w) /\
  field_given_undefined f (DirectUserController.update req w).
Proof.
  intros Hf Hb. split; [|split; [|split]].
  - intros x. by apply update_failures_omitted.
  - by apply update_values_omitted.
  - by apply update_given_undefined.
  - by apply direct_update_given_undefined.
Qed.

(** The lookup answers "absent" exactly when it meets no fault and the
    table has no row under the id. *)
Lemma findByPk_absent (id : string) (w : world) :
  outcome (findByPk id w) = Normal None ->
  next_fault w = None /\ rows w !! id = None.
Proof.
  unfold findByPk, store_call. destruct (next_fault w); [discriminate|].
  cbn. destruct (rows w !! id); [discriminate|done].
Qed.

(** C7. For every update or delete request whose id has no stored resource
    (the lookup returns absent), in both controllers the answer is a 404
    whose document has a single error entry, and the only call to the store
    is the lookup: no create, update or destroy is issued. *)
Theorem absent_resource_gives_404_and_no_write (req : request) (w : world) :
  outcome (findByPk (params_id req) w) = Normal None ->
  Forall (fun r => outcome r = Normal (res_status_send 404 (Errors [resourceNotFound])) /\
                   trace r = [EFindByPk (params_id req)] /\
                   writes (trace r) = [])
    [UserController.update req w; UserController.destroy req w;
     DirectUserController.update req w; DirectUserController.destroy req w].
Proof.
  intros [Hf Hr]%findByPk_absent.
  assert (Hno : forall old, rows w !! params_id req = Some old -> False)
    by (intros old E; rewrite E in Hr; discriminate).
  assert (Hnf : is_Some (next_fault w) -> False)
    by (intros [e E]; rewrite E in Hf; discriminate).
  repeat first [apply List.Forall_cons | apply List.Forall_nil].
  - destruct (UserControllerFacts.update_cases req w)
      as [(E & _)|[(_ & _ & Ho & Ht)|(old & _ & E & _)]];
      [by destruct Hnf| |by destruct (Hno old)].
    rewrite Ho, Ht. done.
  - destruct (UserControllerFacts.destroy_cases req w)
      as [(E & _)|[(_ & _ & Ho & Ht)|(old & _ & E & _)]];
      [by destruct Hnf| |by destruct (Hno old)].
    rewrite Ho, Ht. done.
  - destruct (DirectUserControllerFacts.direct_update_cases req w)
      as [(E & _)|[(_ & _ & Ho & Ht)|(old & _ & E & _)]];
      [by destruct Hnf| |by destruct (Hno old)].
    rewrite Ho, Ht. done.
  - destruct (DirectUserControllerFacts.direct_destroy_cases req w)
      as [(E & _)|[(_ & _ & Ho & Ht)|(old & _ & E & _)]];
      [by destruct Hnf| |by destruct (Hno old)].
    rewrite Ho, Ht. done.
Qed.

(** C8. For every successful update, in both controllers, the data of the
    success document is the representation of the row read back from the
    store by [reload], the last call of the run, after the write (and, in
    the transactional controller, after its commit): the row the table
    holds at the end, which is what the setters made of the sanitized
    values that are not undefined, laid over the row found. *)
Theorem update_answers_with_the_reloaded_row (req : request) (w : world)
    (r : result response) (resp : response) :
  r = UserController.update req w \/ r = DirectUserController.update req w ->
  outcome r = Normal resp -> statusCode resp = 200 ->
  exists old row,
    rows w !! params_id req = Some old /\
    row = setters (omit_undefined (update_values req)) ∪ old /\
    rows (final r) !! params_id req = Some row /\
    sent resp = Data (convert_values (params_id req) row) /\
    (trace r = [EFindByPk (params_id req); ETransaction (next_tx w);
                EUpdate (params_id req) (update_values req) (Some (next_tx w));
                ECommit (next_tx w); EReload (params_id req)] \/
     trace r = [EFindByPk (params_id req);
                EUpdate (params_id req) (update_values req) None;
                EReload (params_id req)]).
Proof.
  intros [->| ->] Ho Hs.
  - destruct (UserControllerFacts.update_cases req w)
      as [(_ & [err Ho'] & _)|[(_ & _ & Ho' & _)|(old & _ & Hold &
           [(_ & Ho' & _)|[(_ & [err Ho'] & _)|[(_ & [err Ho'] & _)|
            (_ & Ht & Hrow & [[err Ho']|Ho'])]]])]]; same_response;
      try discriminate Hs.
    exists old, (setters (omit_undefined (update_values req)) ∪ old). auto 10.
  - destruct (DirectUserControllerFacts.direct_update_cases req w)
      as [(_ & [err Ho'] & _)|[(_ & _ & Ho' & _)|(old & _ & Hold &
           [(_ & Ho' & _)|[(_ & [err Ho'] & _)|
            (_ & Ht & Hrow & [[err Ho']|Ho'])]])]]; same_response;
      try discriminate Hs.
    exists old, (setters (omit_undefined (update_values req)) ∪ old). auto 10.
Qed.

Lemma arrayElement_alphanumeric (drawn : nat) :
  alphanumeric (arrayElement alphaNumeric_chars drawn) = true.
Proof.
  assert (Hall : forallb alphanumeric alphaNumeric_chars = true) by reflexivity.
  rewrite forallb_forall in Hall. apply Hall. unfold arrayElement.
  apply nth_In. apply Nat.mod_upper_bound. discriminate.
Qed.

Lemma alphaNumeric_from_length (count : nat) (e : list nat) :
  String.length (alphaNumeric_from count e).1 = count.
Proof.
  revert e. induction count as [|count IH]; intros e; [reflexivity|].
  cbn [alphaNumeric_from]. destruct e as [|d e].
  - specialize (IH []). destruct (alphaNumeric_from count []). cbn in *. lia.
  - specialize (IH e). destruct (alphaNumeric_from count e). cbn in *. lia.
Qed.

Lemma alphaNumeric_from_alphanumeric (count : nat) (e : list nat) :
  forallb alphanumeric (list_ascii_of_string (alphaNumeric_from count e).1) = true.
Proof.
  revert e. induction count as [|count IH]; intros e; [reflexivity|].
  cbn [alphaNumeric_from]. destruct e as [|d e].
  - specialize (IH []). destruct (alphaNumeric_from count []).
    cbn [fst list_ascii_of_string forallb] in *.
    by rewrite arrayElement_alphanumeric, IH.
  - specialize (IH e). destruct (alphaNumeric_from count e).
    cbn [fst list_ascii_of_string forallb] in *.
    by rewrite arrayElement_alphanumeric, IH.
Qed.

(** A payload that supplies [name] does not pass the create schema. *)
Lemma create_failures_forbidden (req : request) :
  create_failures req = [] -> exists_ (body_get (body req) "name") = false.
Proof.
  intros Hnil. destruct (exists_ (body_get (body req) "name")) eqn:He; [|done].
  assert (Hin : {| ff_field := "name"; ff_message := errorMessage MustNotExist |}
                  ∈ create_failures req).
  { apply (ValidationFacts.validationResult_reports _ _
             {| field := "name"; only_if_present := false;
                steps := shouldNotExist |} MustNotExist); [by left|].
    unfold run_chain. cbn. rewrite He. cbn.
    destruct (blocking MustNotExist); by left. }
  rewrite Hnil in Hin. by apply elem_of_nil in Hin.
Qed.

(** C10. For every successful create, in both controllers, the [name] given
    to [User.create] is the string faker generates: 15 characters, each a
    digit or a lower-case letter, drawn from the server's random source and
    from nothing in the request, whose payload cannot even carry a [name];
    [screenName], [email] and [password] are those of the validated
    payload. The row stored is what the model's setters make of these
    values. *)
Theorem created_name_is_generated_by_the_server (req : request) (w : world)
    (r : result response) (resp : response) :
  r = UserController.create req w \/ r = DirectUserController.create req w ->
  outcome r = Normal resp -> statusCode resp = 201 ->
  let validated := matchedData (runAllValidations (checkBodySchema create_schema)
                                  (body req)) in
  exists name tx u,
    name = (alphaNumeric_from 15 (entropy w)).1 /\
    String.length name = 15%nat /\
    forallb alphanumeric (list_ascii_of_string name) = true /\
    exists_ (body_get (body req) "name") = false /\
    writes (trace r) = [ECreate (create_values req w) tx] /\
    create_values req w !! "name" = Some (VString name) /\
    create_values req w !! "screenName" = Some (body_get validated "screenName") /\
    create_values req w !! "email" = Some (body_get validated "email") /\
    create_values req w !! "password" = Some (body_get validated "password") /\
    resp = res_status_send 201 (Data (convert u)) /\
    rows (final r) !! pk u = Some (setters (create_values req w)).
Proof.
  intros Hr Ho Hs validated.
  assert (Hcase : create_failures req = [] /\
            exists tx u, writes (trace r) = [ECreate (create_values req w) tx] /\
              resp = res_status_send 201 (Data (convert u)) /\
              rows (final r) !! pk u = Some (setters (create_values req w))).
  { destruct Hr as [->| ->].
    - destruct (UserControllerFacts.create_cases req w)
        as [(_ & Ho' & _)|[(_ & [err Ho'] & _)|[(_ & [err Ho'] & _)|
            (Hnil & (u & Ho' & Hrow & Hu) & Ht)]]]; same_response;
        try discriminate Hs.
      split; [done|]. exists (Some (next_tx w)), u. rewrite Ht, Hrow, Hu. done.
    - destruct (DirectUserControllerFacts.direct_create_cases req w)
        as [(_ & Ho' & _)|(Hnil & Ht & [[err Ho']|(u & Ho' & Hrow & Hu)])];
        same_response; try discriminate Hs.
      split; [done|]. exists None, u. rewrite Ht, Hrow, Hu. done. }
  destruct Hcase as (Hnil & tx & u & Hw & Hresp & Hrow).
  exists (alphaNumeric_from 15 (entropy w)).1, tx, u.
  split; [done|]. split; [apply alphaNumeric_from_length|].
  split; [apply alphaNumeric_from_alphanumeric|].
  split; [by apply create_failures_forbidden|].
  split; [done|].
  unfold create_values, user_values.
  repeat split; try done; by simplify_map_eq.
Qed.

(** The three mutating handlers of src/controllers/userController.ts issue
    at most one write, on the one transaction they open, and a write that
    answers 200 or 201 went through exactly one. *)
Lemma writes_go_through_one_transaction (req : request) (w : world)
    (r : result response) :
  r ∈ [UserController.create req w; UserController.update req w;
       UserController.destroy req w] ->
  outside None (trace r) = [] /\
  (length (writes (trace r)) <= length (transactions (trace r)) <= 1)%nat /\
  (forall resp, outcome r = Normal resp ->
                statusCode resp = 200 \/ statusCode resp = 201 ->
                length (writes (trace r)) = 1%nat /\
                length (transactions (trace r)) = 1%nat).
Proof.
  intros Hr.
  repeat (apply elem_of_cons in Hr as [->|Hr]); [| | |by apply elem_of_nil in Hr].
  - destruct (UserControllerFacts.create_cases req w)
      as [(_ & Ho & Ht)|[(_ & [err Ho] & Ht)|[(_ & [err Ho] & Ht)|
          (_ & (u & Ho & _) & Ht)]]]; rewrite Ht; cbn [outside is_write tx_of andb];
      rewrite ?bool_decide_true by eauto; (split; [done|]); (split; [cbn; lia|]);
      intros resp Ho' Hs; same_response; destruct Hs as [Hs|Hs]; try discriminate Hs;
      done.
  - destruct (UserControllerFacts.update_cases req w)
      as [(_ & [err Ho] & Ht)|[(_ & _ & Ho & Ht)|(old & _ & _ &
           [(_ & Ho & Ht)|[(_ & [err Ho] & Ht)|[(_ & [err Ho] & Ht)|
            (_ & Ht & _ & [[err Ho]|Ho])]]])]]; rewrite Ht; cbn [outside is_write tx_of andb];
      rewrite ?bool_decide_true by eauto; (split; [done|]); (split; [cbn; lia|]);
      intros resp Ho' Hs; same_response; destruct Hs as [Hs|Hs]; try discriminate Hs;
      done.
  - destruct (UserControllerFacts.destroy_cases req w)
      as [(_ & [err Ho] & Ht)|[(_ & _ & Ho & Ht)|(old & _ & _ &
           [([err Ho] & Ht)|[([err Ho] & Ht)|(Ho & _ & Ht)]])]]; rewrite Ht;
      cbn [outside is_write tx_of andb];
      rewrite ?bool_decide_true by eauto; (split; [done|]); (split; [cbn; lia|]);
      intros resp Ho' Hs; same_response; destruct Hs as [Hs|Hs]; try discriminate Hs;
      done.
Qed.

(** The handlers of the other controller source open no transaction: every
    write they issue is outside one. *)
Lemma direct_writes_use_no_transaction (req : request) (w : world)
    (r : result response) :
  r ∈ [DirectUserController.create req w; DirectUserController.update req w;
       DirectUserController.destroy req w] ->
  transactions (trace r) = [] /\ outside None (trace r) = writes (trace r).
Proof.
  intros Hr.
  repeat (apply elem_of_cons in Hr as [->|Hr]); [| | |by apply elem_of_nil in Hr].
  - destruct (DirectUserControllerFacts.direct_create_cases req w)
      as [(_ & _ & Ht)|(_ & Ht & _)]; rewrite Ht; done.
  - destruct (DirectUserControllerFacts.direct_update_cases req w)
      as [(_ & _ & Ht)|[(_ & _ & _ & Ht)|(old & _ & _ &
           [(_ & _ & Ht)|[(_ & _ & Ht)|(_ & Ht & _)]])]]; rewrite Ht; done.
  - destruct (DirectUserControllerFacts.direct_destroy_cases req w)
      as [(_ & _ & Ht)|[(_ & _ & _ & Ht)|(old & _ & _ & Ht & _)]]; rewrite Ht; done.
Qed.

End Facts.
End EndpointFacts.

(** ** The endpoints on concrete requests *)

Module Scenarios.
Import Sample.

(** C4 (evaluated on the code). The claim has every mutating endpoint
    write through exactly one [db.transaction]. On a valid create request
    the handler of src/controllers/userController.ts does: it opens one
    transaction, writes on it and commits. The handler of the other
    controller source answers 201 as well, but opens no transaction: its
    [User.create] is issued outside any. *)
Theorem direct_create_writes_outside_a_transaction :
  let r := UserController.create valid_create empty_world in
  let r' := DirectUserController.create valid_create empty_world in
  trace r = [ETransaction 0; ECreate (create_values valid_create empty_world) (Some 0%nat);
             ECommit 0] /\
  outside None (trace r) = [] /\
  (exists resp, outcome r' = Normal resp /\ statusCode resp = 201) /\
  trace r' = [ECreate (create_values valid_create empty_world) None] /\
  transactions (trace r') = [] /\
  outside None (trace r') = [ECreate (create_values valid_create empty_world) None].
Proof.
  cbv zeta. repeat split; try (vm_compute; reflexivity).
  eexists. split; vm_compute; reflexivity.
Qed.

(** The same holds of its update and destroy. *)
Example direct_update_and_destroy_write_outside_a_transaction :
  writes (trace (DirectUserController.update (update_password "1") one_user_world))
    = outside None (trace (DirectUserController.update (update_password "1") one_user_world)) /\
  length (writes (trace (DirectUserController.update (update_password "1") one_user_world)))
    = 1%nat /\
  writes (trace (DirectUserController.destroy (update_password "1") one_user_world))
    = [EDestroy "1" None] /\
  outside None (trace (DirectUserController.destroy (update_password "1") one_user_world))
    = [EDestroy "1" None].
Proof. repeat split; vm_compute; reflexivity. Qed.

(** Scenario: the password submitted is not what the success document of an
    update shows; it shows what the store holds after the write. *)
Example update_shows_the_stored_password :
  exists resp,
    outcome (UserController.update (update_password "1") one_user_world) = Normal resp /\
    sent resp = Data (VObject [("id", VString "1");
                               ("name", VString "k3v9x0a7b1c2d4e");
                               ("screenName", VString "ada");
                               ("email", VString "ada@example.org");
                               ("password", VString "digest")]) /\
    update_values (update_password "1") !! "password" = Some (VString "N3w!passw0rd").
Proof. eexists. repeat split; vm_compute; reflexivity. Qed.

(** Atomicity: with a fault injected into the write, the transaction is
    rolled back and the table is as before. *)
Example update_fault_rolls_back :
  let w := with_plan one_user_world [None; None; Some VNull] in
  let r := UserController.update (update_password "1") w in
  (exists resp, outcome r = Normal resp /\ statusCode resp = 500) /\
  rows (final r) = rows w /\
  last (trace r) = Some (ERollback 0).
Proof.
  cbv zeta. repeat split; try (vm_compute; reflexivity).
  eexists. split; vm_compute; reflexivity.
Qed.

(** Scenarios A and B of the spec: an empty screenName and a supplied name
    are each answered 422 with an entry on that field. *)
Example scenario_A_and_B :
  (exists es e, outcome (UserController.create empty_screenName_create empty_world)
                  = Normal (res_status_send 422 (Errors es)) /\
                e ∈ es /\ source e = Some "screenName") /\
  (exists es e, outcome (UserController.create named_create empty_world)
                  = Normal (res_status_send 422 (Errors es)) /\
                e ∈ es /\ source e = Some "name").
Proof.
  split; eexists _, _; (split; [vm_compute; reflexivity|]);
    (split; [by left|reflexivity]).
Qed.

(** Scenario D of the spec: a malformed email on an existing resource is
    answered 422 on [email], and no write is issued. *)
Example scenario_D :
  let r := UserController.update (update_bad_email "1") one_user_world in
  (exists es e, outcome r = Normal (res_status_send 422 (Errors es)) /\
                e ∈ es /\ source e = Some "email") /\
  trace r = [EFindByPk "1"] /\
  rows (final r) = rows one_user_world.
Proof.
  cbv zeta. split; [|split; vm_compute; reflexivity].
  eexists _, _. split; [vm_compute; reflexivity|]. split; [by left|reflexivity].
Qed.

(** Scenario E of the spec: a valid create is answered 201 with the
    representation of the row, under the key the store assigned. *)
Example scenario_E :
  outcome (UserController.create valid_create empty_world)
  = Normal (res_status_send 201
      (Data (VObject [("id", VString "1");
                      ("name", VString "000000000000000");
                      ("screenName", VString "grace");
                      ("email", VString "grace@example.org");
                      ("password", VString "digest")]))).
Proof. vm_compute. reflexivity. Qed.


(** C6 (as stated, refuted). The claim has the sanitized payload that is
    passed to the store write not contain a field the update payload omits.
    The update of user 1 that carries a password only omits [email];
    [matchedData] holds [email] all the same, with the value [undefined],
    and so do the values given to [user.update]. *)
Lemma omitted_field_is_passed_to_the_write :
  ~ ("email" ∈ optional_fields -> body (update_password "1") !! "email" = None ->
     (forall x, x ∈ update_failures (update_password "1") -> ff_field x <> "email") /\
     update_values (update_password "1") !! "email" = None /\
     field_untouched "email"
       (UserController.update (update_password "1") one_user_world) /\
     field_untouched "email"
       (DirectUserController.update (update_password "1") one_user_world)).
Proof.
  intros Hclaim.
  destruct Hclaim as (_ & Hdata & _); [by compute_done|reflexivity|].
  vm_compute in Hdata. discriminate Hdata.
Qed.

(** Witness for C6: an update that carries a password only omits email. *)
Lemma update_gives_omitted_field_as_undefined_witness :
  (forall x, x ∈ update_failures (update_password "1") -> ff_field x <> "email") /\
  update_values (update_password "1") !! "email" = Some VUndefined /\
  field_given_undefined "email"
    (UserController.update (update_password "1") one_user_world) /\
  field_given_undefined "email"
    (DirectUserController.update (update_password "1") one_user_world).
Proof.
  apply (EndpointFacts.update_gives_omitted_field_as_undefined
           (update_password "1") one_user_world "email").
  - by compute_done.
  - reflexivity.
Defined.

(** Witness for C7: no row is stored under id 7. *)
Lemma absent_resource_gives_404_and_no_write_witness :
  Forall (fun r => outcome r = Normal (res_status_send 404 (Errors [resourceNotFound])) /\
                   trace r = [EFindByPk "7"] /\ writes (trace r) = [])
    [UserController.update (update_password "7") one_user_world;
     UserController.destroy (update_password "7") one_user_world;
     DirectUserController.update (update_password "7") one_user_world;
     DirectUserController.destroy (update_password "7") one_user_world].
Proof.
  apply (EndpointFacts.absent_resource_gives_404_and_no_write
           (update_password "7") one_user_world).
  reflexivity.
Defined.

(** Witness for C8: the update of the stored user's password succeeds. *)
Lemma update_answers_with_the_reloaded_row_witness :
  exists old row,
    rows one_user_world !! "1" = Some old /\
    row = setters (omit_undefined (update_values (update_password "1"))) ∪ old /\
    rows (final (UserController.update (update_password "1") one_user_world)) !! "1"
      = Some row /\
    sent (res_send (Data (convert_values "1"
            (<["password" := VString "digest"]> ada))))
      = Data (convert_values "1" row) /\
    (trace (UserController.update (update_password "1") one_user_world)
       = [EFindByPk "1"; ETransaction 0;
          EUpdate "1" (update_values (update_password "1")) (Some 0%nat);
          ECommit 0; EReload "1"] \/
     trace (UserController.update (update_password "1") one_user_world)
       = [EFindByPk "1"; EUpdate "1" (update_values (update_password "1")) None;
          EReload "1"]).
Proof.
  apply (EndpointFacts.update_answers_with_the_reloaded_row
           (update_password "1") one_user_world
           (UserController.update (update_password "1") one_user_world)
           (res_send (Data (convert_values "1"
              (<["password" := VString "digest"]> ada))))).
  - left. reflexivity.
  - vm_compute. reflexivity.
  - reflexivity.
Defined.

(** Witness for C10: a valid create on the empty table. *)
Lemma created_name_is_generated_by_the_server_witness :
  exists name tx u,
    name = (alphaNumeric_from 15 (entropy empty_world)).1 /\
    String.length name = 15%nat /\
    forallb alphanumeric (list_ascii_of_string name) = true /\
    exists_ (body_get (body valid_create) "name") = false /\
    writes (trace (UserController.create valid_create empty_world))
      = [ECreate (create_values valid_create empty_world) tx] /\
    create_values valid_create empty_world !! "name" = Some (VString name) /\
    create_values valid_create empty_world !! "screenName"
      = Some (body_get (matchedData (runAllValidations
                 (checkBodySchema create_schema) (body valid_create))) "screenName") /\
    create_values valid_create empty_world !! "email"
      = Some (body_get (matchedData (runAllValidations
                 (checkBodySchema create_schema) (body valid_create))) "email") /\
    create_values valid_create empty_world !! "password"
      = Some (body_get (matchedData (runAllValidations
                 (checkBodySchema create_schema) (body valid_create))) "password") /\
    res_status_send 201 (Data (convert
        {| pk := "1"; dataValues := setters (create_values valid_create empty_world) |}))
      = res_status_send 201 (Data (convert u)) /\
    rows (final (UserController.create valid_create empty_world)) !! pk u
      = Some (setters (create_values valid_create empty_world)).
Proof.
  apply (EndpointFacts.created_name_is_generated_by_the_server
           valid_create empty_world
           (UserController.create valid_create empty_world)
           (res_status_send 201 (Data (convert
              {| pk := "1";
                 dataValues := setters (create_values valid_create empty_world) |})))).
  - left. reflexivity.
  - vm_compute. reflexivity.
  - reflexivity.
Defined.

End Scenarios.

(** ** The read-only endpoints *)

Ltac simp_goal :=
  cbn -[omit_undefined alphaNumeric_from validationResult runAllValidations matchedData
        checkBodySchema create_schema update_validations user_values next_fault
        lookup insert alter delete union internalServerError map_to_list].

Ltac unfold_store :=
  unfold reload;
  unfold try_or_return, transaction, bindM, alphaNumeric, findByPk, findAll,
    Sequelize.create, Sequelize.update, Sequelize.destroy,
    store_call, ret, throw.

(** Use what is known of the next fault and of a lookup. *)
Ltac known :=
  repeat (simp_goal;
          match goal with
          | E : next_fault ?x = _ |- context [next_fault ?x] => rewrite E
          | E : ?m !! ?k = _ |- context [?m !! ?k] => rewrite E
          end);
  simp_goal.

Module ReadFacts.

Section Facts.
Context `{ValidatorJs} `{UserModel}.

(** [show] of src/controllers/userController.ts is decided by its one
    lookup. *)
Lemma show_run (req : request) (w : world) :
  let r := UserController.show req w in
  trace r = [EFindByPk (params_id req)] /\
  final r = after_call w /\
  outcome r =
    match next_fault w, rows w !! params_id req with
    | Some e, _ =>
        Normal (res_status_send 500 (docWithErrors (internalServerError e)))
    | None, Some row => Normal (res_send (Data (convert_values (params_id req) row)))
    | None, None => Normal (res_status_send 404 (Errors [resourceNotFound]))
    end.
Proof.
  unfold UserController.show, UserController.getUserById,
    UserController.respond_500. unfold_store.
  destruct (next_fault w) eqn:Hf; [by known|].
  destruct (rows w !! params_id req) eqn:Hr; by known.
Qed.

Lemma direct_show_run (req : request) (w : world) :
  let r := DirectUserController.show req w in
  trace r = [EFindByPk (params_id req)] /\
  final r = after_call w /\
  outcome r =
    match next_fault w, rows w !! params_id req with
    | Some e, _ => Throw e
    | None, Some row => Normal (res_send (Data (convert_values (params_id req) row)))
    | None, None => Normal (res_status_send 404 (Errors [resourceNotFound]))
    end.
Proof.
  unfold DirectUserController.show, DirectUserController.getUserById,
    DirectUserController.non_null. unfold_store.
  destruct (next_fault w) eqn:Hf; [by known|].
  destruct (rows w !! params_id req) eqn:Hr; by known.
Qed.

Lemma index_run (req : request) (w : world) :
  let r := UserController.index req w in
  trace r = [EFindAll] /\
  final r = after_call w /\
  outcome r =
    match next_fault w with
    | Some e => Normal (res_status_send 500 (docWithErrors (internalServerError e)))
    | None =>
        Normal (res_send (Data (VArray
          (map convert (map (fun '(k, r) => mk_instance k r)
                            (map_to_list (rows w)))))))
    end.
Proof.
  unfold UserController.index, UserController.respond_500. unfold_store.
  destruct (next_fault w) eqn:Hf; by known.
Qed.

Lemma direct_index_run (req : request) (w : world) :
  let r := DirectUserController.index req w in
  trace r = [EFindAll] /\
  final r = after_call w /\
  outcome r =
    match next_fault w with
    | Some e => Throw e
    | None =>
        Normal (res_send (Data (VArray
          (map convert (map (fun '(k, r) => mk_instance k r)
                            (map_to_list (rows w)))))))
    end.
Proof.
  unfold DirectUserController.index. unfold_store.
  destruct (next_fault w) eqn:Hf; by known.
Qed.

End Facts.
End ReadFacts.

(** ** What the mutating endpoints do to the table *)

Module WriteFacts.

Section Facts.
Context `{ValidatorJs} `{UserModel}.

(** [create] of src/controllers/userController.ts always answers: 422 or
    500 with the table as it was, or 201 with one row added under the next
    key. *)
Lemma create_effect (req : request) (w : world) :
  let r := UserController.create req w in
  let key := pretty (next_pk w) in
  let row := setters (create_values req w) in
  (create_failures req <> [] /\
   outcome r = Normal (res_status_send 422
                         (docWithErrors (validationError (create_failures req)))) /\
   final r = w) \/
  (create_failures req = [] /\ responds_500 r /\ rows (final r) = rows w) \/
  (create_failures req = [] /\
   outcome r = Normal (res_status_send 201 (Data (convert_values key row))) /\
   rows (final r) = <[key := row]> (rows w) /\
   next_pk (final r) = N.succ (next_pk w)).
Proof.
  intros r key row. subst key row. unfold create_values, create_failures, responds_500.
  remember r as r' eqn:Hr. subst r.
  unfold UserController.create, UserController.respond_500 in Hr.
  destruct (validationResult _) eqn:Hv.
  - unfold_store_in Hr. simp_in Hr. repeat step_in Hr.
    all: subst r'; cbn [outcome final trace]; right; branches.
  - subst r'. left. close.
Qed.

(** [create] of the direct controller: 422, or the rejection of the store
    with the table as it was, or 201 with one row added. *)
Lemma direct_create_effect (req : request) (w : world) :
  let r := DirectUserController.create req w in
  let key := pretty (next_pk w) in
  let row := setters (create_values req w) in
  (create_failures req <> [] /\
   outcome r = Normal (res_status_send 422
                         (docWithErrors (validationError (create_failures req)))) /\
   final r = w) \/
  (create_failures req = [] /\
   (exists e, next_fault w = Some e /\ outcome r = Throw e) /\
   rows (final r) = rows w) \/
  (create_failures req = [] /\ next_fault w = None /\
   outcome r = Normal (res_status_send 201 (Data (convert_values key row))) /\
   rows (final r) = <[key := row]> (rows w) /\
   next_pk (final r) = N.succ (next_pk w)).
Proof.
  intros r key row. subst key row. unfold create_values, create_failures.
  remember r as r' eqn:Hr. subst r.
  unfold DirectUserController.create in Hr.
  destruct (validationResult _) eqn:Hv.
  - unfold_store_in Hr. simp_in Hr. repeat step_in Hr.
    all: subst r'; cbn [outcome final trace]; right; branches.
  - subst r'. left. close.
Qed.

(** [update] of src/controllers/userController.ts: 500, 404 or 422 with the
    table as it was, or the row rewritten and committed; after the commit
    the answer is 200, unless [reload] rejects. *)
Lemma update_effect (req : request) (w : world) :
  let r := UserController.update req w in
  let id := params_id req in
  (responds_500 r /\ rows (final r) = rows w) \/
  (next_fault w = None /\ rows w !! id = None /\
   outcome r = Normal (res_status_send 404 (Errors [resourceNotFound])) /\
   rows (final r) = rows w) \/
  (exists old, next_fault w = None /\ rows w !! id = Some old /\
     ((update_failures req <> [] /\
       outcome r = Normal (res_status_send 422
                             (docWithErrors (validationError (update_failures req)))) /\
       rows (final r) = rows w) \/
      (update_failures req = [] /\
       rows (final r)
         = alter (fun row => setters (omit_undefined (update_values req)) ∪ row) id (rows w) /\
       ((exists e, outcome r = Throw e /\
                   last (trace r) = Some (EReload id)) \/
        outcome r = Normal (res_send
          (Data (convert_values id (setters (omit_undefined (update_values req)) ∪ old)))))))).
Proof.
  intros r id. subst id. unfold update_values, update_failures, responds_500.
  remember r as r' eqn:Hr. subst r.
  unfold UserController.update, UserController.getUserById,
    UserController.respond_500 in Hr.
  unfold_store_in Hr. simp_in Hr.
  step_in Hr; [subst r'; cbn [outcome final trace]; left; close|].
  step_in Hr; [|subst r'; cbn [outcome final trace]; right; left; close].
  destruct (validationResult _) eqn:Hv.
  - simp_in Hr. repeat step_in Hr.
    all: subst r'; cbn [outcome final trace].
    all: first [ solve [left; close]
               | right; right; eexists; do 2 (split; [eassumption || reflexivity|]);
                 right; close ].
  - subst r'. right; right. eexists. do 2 (split; [eassumption || reflexivity|]).
    left. close.
Qed.

(** [destroy] of src/controllers/userController.ts: 500 or 404 with the
    table as it was, or 200 with the row removed. *)
Lemma destroy_effect (req : request) (w : world) :
  let r := UserController.destroy req w in
  let id := params_id req in
  (responds_500 r /\ rows (final r) = rows w) \/
  (next_fault w = None /\ rows w !! id = None /\
   outcome r = Normal (res_status_send 404 (Errors [resourceNotFound])) /\
   rows (final r) = rows w) \/
  (exists old, next_fault w = None /\ rows w !! id = Some old /\
     outcome r = Normal (res_send (Data (convert_values id old))) /\
     rows (final r) = delete id (rows w)).
Proof.
  intros r id. subst id. unfold responds_500.
  remember r as r' eqn:Hr. subst r.
  unfold UserController.destroy, UserController.getUserById,
    UserController.respond_500 in Hr.
  unfold_store_in Hr. simp_in Hr.
  step_in Hr; [subst r'; cbn [outcome final trace]; left; close|].
  step_in Hr; [|subst r'; cbn [outcome final trace]; right; left; close].
  repeat step_in Hr.
  all: subst r'; cbn [outcome final trace].
  all: first [ solve [left; close]
             | right; right; eexists; close ].
Qed.

(** [update] of the direct controller: a rejected lookup, 404 or 422 with
    the table as it was; a rejected write with the table as it was; or the
    row rewritten, and then 200 unless [reload] rejects. *)
Lemma direct_update_effect (req : request) (w : world) :
  let r := DirectUserController.update req w in
  let id := params_id req in
  ((exists e, next_fault w = Some e /\ outcome r = Throw e) /\
   rows (final r) = rows w) \/
  (next_fault w = None /\ rows w !! id = None /\
   outcome r = Normal (res_status_send 404 (Errors [resourceNotFound])) /\
   rows (final r) = rows w) \/
  (exists old, next_fault w = None /\ rows w !! id = Some old /\
     ((update_failures req <> [] /\
       outcome r = Normal (res_status_send 422
                             (docWithErrors (validationError (update_failures req)))) /\
       rows (final r) = rows w) \/
      (update_failures req = [] /\ (exists e, outcome r = Throw e) /\
       rows (final r) = rows w) \/
      (update_failures req = [] /\
       rows (final r)
         = alter (fun row => setters (omit_undefined (update_values req)) ∪ row) id (rows w) /\
       ((exists e, outcome r = Throw e /\
                   last (trace r) = Some (EReload id)) \/
        outcome r = Normal (res_send
          (Data (convert_values id (setters (omit_undefined (update_values req)) ∪ old)))))))).
Proof.
  intros r id. subst id. unfold update_values, update_failures.
  remember r as r' eqn:Hr. subst r.
  unfold DirectUserController.update, DirectUserController.getUserById,
    DirectUserController.non_null in Hr.
  unfold_store_in Hr. simp_in Hr.
  step_in Hr; [subst r'; cbn [outcome final trace]; left; close|].
  step_in Hr; [|subst r'; cbn [outcome final trace]; right; left; close].
  right; right. eexists. do 2 (split; [eassumption || reflexivity|]).
  destruct (validationResult _) eqn:Hv.
  - simp_in Hr. repeat step_in Hr.
    all: subst r'; cbn [outcome final trace]; right; branches.
  - subst r'. left. close.
Qed.

(** [destroy] of the direct controller. *)
Lemma direct_destroy_effect (req : request) (w : world) :
  let r := DirectUserController.destroy req w in
  let id := params_id req in
  ((exists e, next_fault w = Some e /\ outcome r = Throw e) /\
   rows (final r) = rows w) \/
  (next_fault w = None /\ rows w !! id = None /\
   outcome r = Normal (res_status_send 404 (Errors [resourceNotFound])) /\
   rows (final r) = rows w) \/
  (exists old, next_fault w = None /\ rows w !! id = Some old /\
     (((exists e, outcome r = Throw e) /\ rows (final r) = rows w) \/
      (outcome r = Normal (res_send (Data (convert_values id old))) /\
       rows (final r) = delete id (rows w)))).
Proof.
  intros r id. subst id.
  remember r as r' eqn:Hr. subst r.
  unfold DirectUserController.destroy, DirectUserController.getUserById,
    DirectUserController.non_null in Hr.
  unfold_store_in Hr. simp_in Hr.
  step_in Hr; [subst r'; cbn [outcome final trace]; left; close|].
  step_in Hr; [|subst r'; cbn [outcome final trace]; right; left; close].
  right; right. eexists. do 2 (split; [eassumption || reflexivity|]).
  repeat step_in Hr.
  all: subst r'; cbn [outcome final trace]; branches.
Qed.

End Facts.
End WriteFacts.

(** ** A store that signals no fault *)

Ltac simp_healthy :=
  cbn -[omit_undefined alphaNumeric_from validationResult runAllValidations matchedData
        checkBodySchema create_schema update_validations user_values
        lookup insert alter delete union internalServerError map_to_list].

(** Run a handler on a world whose plan is empty. *)
Ltac healthy w Hplan :=
  destruct w as [?rws ?npk ?ntx ?pl ?ent]; cbn in Hplan; subst;
  unfold_store; simp_healthy;
  repeat (match goal with
          | |- context [alter ?f ?k ?m !! ?k] =>
              rewrite (lookup_alter_eq f m k);
              match goal with E : m !! k = _ |- _ => rewrite E end
          | |- context [@lookup _ _ (gmap _ _) _ ?k ?m] => destruct (m !! k) eqn:?
          | |- context [validationResult ?c] => destruct (validationResult c) eqn:?
          end; simp_healthy).

Module HealthyStoreFacts.

Section Facts.
Context `{ValidatorJs} `{UserModel}.

(** X1. While the store signals no fault, the two controller sources give
    every request the same answer and leave the same table: the
    transactional one differs from the direct one only in the transaction
    it opens and in what it does with a fault. *)
Theorem controllers_agree_on_a_healthy_store (req : request) (w : world) :
  plan w = [] ->
  Forall Compare.same_answer
    [(UserController.index req w, DirectUserController.index req w);
     (UserController.create req w, DirectUserController.create req w);
     (UserController.show req w, DirectUserController.show req w);
     (UserController.update req w, DirectUserController.update req w);
     (UserController.destroy req w, DirectUserController.destroy req w)].
Proof.
  intros Hplan. unfold Compare.same_answer.
  repeat first [apply List.Forall_cons | apply List.Forall_nil]; cbn [fst snd].
  - unfold UserController.index, DirectUserController.index.
    by healthy w Hplan.
  - unfold UserController.create, DirectUserController.create,
      UserController.respond_500.
    by healthy w Hplan.
  - unfold UserController.show, DirectUserController.show,
      UserController.getUserById, DirectUserController.getUserById,
      DirectUserController.non_null, UserController.respond_500.
    by healthy w Hplan.
  - unfold UserController.update, DirectUserController.update,
      UserController.getUserById, DirectUserController.getUserById,
      DirectUserController.non_null, UserController.respond_500.
    by healthy w Hplan.
  - unfold UserController.destroy, DirectUserController.destroy,
      UserController.getUserById, DirectUserController.getUserById,
      DirectUserController.non_null, UserController.respond_500.
    by healthy w Hplan.
Qed.

End Facts.
End HealthyStoreFacts.

(** ** More on the endpoints *)

Module MoreEndpointFacts.

Section Facts.
Context `{ValidatorJs} `{UserModel}.

(** X2. [index] and [show], in both controller sources, only read: their
    one call to the store is the query, they open no transaction, issue no
    write and leave the table as it was, whatever the store answers. *)
Theorem read_endpoints_only_read (req : request) (w : world) :
  Forall (fun r => length (trace r) = 1%nat /\ writes (trace r) = [] /\
                   transactions (trace r) = [] /\ rows (final r) = rows w)
    [UserController.index req w; UserController.show req w;
     DirectUserController.index req w; DirectUserController.show req w].
Proof.
  repeat first [apply List.Forall_cons | apply List.Forall_nil].
  - destruct (ReadFacts.index_run req w) as (-> & -> & _). done.
  - destruct (ReadFacts.show_run req w) as (-> & -> & _). done.
  - destruct (ReadFacts.direct_index_run req w) as (-> & -> & _). done.
  - destruct (ReadFacts.direct_show_run req w) as (-> & -> & _). done.
Qed.

(** X3. When the query meets no fault, [index] answers 200 with an array
    that holds the representation of every stored row and nothing else, one
    item per row; on the empty table the array is empty. Both controller
    sources. *)
Theorem index_lists_every_stored_row (req : request) (w : world) :
  next_fault w = None ->
  exists items,
    outcome (UserController.index req w) = Normal (res_send (Data (VArray items))) /\
    outcome (DirectUserController.index req w)
      = Normal (res_send (Data (VArray items))) /\
    length items = size (rows w) /\
    (rows w = ∅ -> items = []) /\
    forall x, x ∈ items <->
              exists id row, rows w !! id = Some row /\ x = convert_values id row.
Proof.
  intros Hf.
  destruct (ReadFacts.index_run req w) as (_ & _ & Ho).
  destruct (ReadFacts.direct_index_run req w) as (_ & _ & Ho').
  rewrite Hf in Ho, Ho'. eexists. split; [exact Ho|]. split; [exact Ho'|].
  split; [|split].
  - rewrite !length_map. apply length_map_to_list.
  - intros ->. by rewrite map_to_list_empty.
  - intros x. rewrite list_elem_of_In, in_map_iff. split.
    + intros (u & <- & Hu). apply in_map_iff in Hu as ([id row] & <- & Hin).
      exists id, row. split; [|done].
      by apply elem_of_map_to_list, list_elem_of_In.
    + intros (id & row & Hrow & ->). exists (mk_instance id row). split; [done|].
      apply in_map_iff. exists (id, row). split; [done|].
      by apply list_elem_of_In, elem_of_map_to_list.
Qed.

(** X4. [show] is decided by its lookup: the representation of the stored
    row with status 200 when the row exists, the 404 document when it does
    not, and, when the lookup is rejected, the 500 document in
    src/controllers/userController.ts and the rejection itself, uncaught, in
    the direct controller. *)
Theorem show_answers_by_lookup (req : request) (w : world) :
  outcome (UserController.show req w) =
    match next_fault w, rows w !! params_id req with
    | Some e, _ =>
        Normal (res_status_send 500 (docWithErrors (internalServerError e)))
    | None, Some row => Normal (res_send (Data (convert_values (params_id req) row)))
    | None, None => Normal (res_status_send 404 (Errors [resourceNotFound]))
    end /\
  outcome (DirectUserController.show req w) =
    match next_fault w, rows w !! params_id req with
    | Some e, _ => Throw e
    | None, Some row => Normal (res_send (Data (convert_values (params_id req) row)))
    | None, None => Normal (res_status_send 404 (Errors [resourceNotFound]))
    end.
Proof.
  split; [apply ReadFacts.show_run|apply ReadFacts.direct_show_run].
Qed.

(** The first call a handler issues, when the store rejects it. *)
Ltac first_fault Hf :=
  unfold_store; rewrite ?Hf; simp_goal; rewrite ?Hf; done.

(** X5. When the store rejects the first call of [index], [show],
    [update] or [destroy], with fault [e],
    src/controllers/userController.ts catches it and answers the 500
    document; the direct controller lets [e] escape as its own rejection
    and sends nothing. The table is left as it was in both. *)
Theorem first_fault_is_caught_or_escapes (req : request) (w : world) (e : value) :
  next_fault w = Some e ->
  Forall (Compare.caught_or_escapes e w)
    [(UserController.index req w, DirectUserController.index req w);
     (UserController.show req w, DirectUserController.show req w);
     (UserController.update req w, DirectUserController.update req w);
     (UserController.destroy req w, DirectUserController.destroy req w)].
Proof.
  intros Hf. unfold Compare.caught_or_escapes.
  repeat first [apply List.Forall_cons | apply List.Forall_nil]; cbn [fst snd].
  - destruct (ReadFacts.index_run req w) as (_ & -> & ->).
    destruct (ReadFacts.direct_index_run req w) as (_ & -> & ->).
    by rewrite Hf.
  - destruct (ReadFacts.show_run req w) as (_ & -> & ->).
    destruct (ReadFacts.direct_show_run req w) as (_ & -> & ->).
    by rewrite Hf.
  - unfold UserController.update, DirectUserController.update,
      UserController.getUserById, DirectUserController.getUserById,
      UserController.respond_500.
    first_fault Hf.
  - unfold UserController.destroy, DirectUserController.destroy,
      UserController.getUserById, DirectUserController.getUserById,
      UserController.respond_500.
    first_fault Hf.
Qed.

(** X6. The first call [create] makes to the store comes once the payload
    has passed validation. When the store rejects that call with fault [e],
    the handler of src/controllers/userController.ts answers the 500
    document (the rejected call is the opening of its transaction) and the
    direct one rejects with [e] (the rejected call is its [User.create]);
    no row is added. *)
Theorem first_fault_of_create (req : request) (w : world) (e : value) :
  next_fault w = Some e -> create_failures req = [] ->
  Compare.caught_or_escapes e w
    (UserController.create req w, DirectUserController.create req w) /\
  trace (UserController.create req w) = [ETransaction (next_tx w)] /\
  trace (DirectUserController.create req w) = [ECreate (create_values req w) None].
Proof.
  intros Hf Hv. unfold Compare.caught_or_escapes, create_values.
  cbn [fst snd]. unfold create_failures in Hv.
  unfold UserController.create, DirectUserController.create,
    UserController.respond_500. rewrite Hv.
  assert (Hf' : forall t, next_fault {| rows := rows w; next_pk := next_pk w;
                   next_tx := t; plan := plan w; entropy := entropy w |} = Some e)
    by (intros t; exact Hf).
  unfold_store. simp_goal.
  assert (Hf'' : next_fault (with_entropy w (alphaNumeric_from 15 (entropy w)).2)
                 = Some e) by exact Hf.
  rewrite Hf', Hf''. done.
Qed.

(** X7. [index], [create], [show] and [destroy] of
    src/controllers/userController.ts answer every request, whatever the
    store does: a rejection never escapes them. *)
Theorem transactional_handlers_always_answer (req : request) (w : world) :
  Forall (fun r => exists resp, outcome r = Normal resp)
    [UserController.index req w; UserController.create req w;
     UserController.show req w; UserController.destroy req w].
Proof.
  repeat first [apply List.Forall_cons | apply List.Forall_nil].
  - destruct (ReadFacts.index_run req w) as (_ & _ & ->).
    destruct (next_fault w); eauto.
  - destruct (WriteFacts.create_effect req w)
      as [(_ & -> & _)|[(_ & [err ->] & _)|(_ & -> & _)]]; eauto.
  - destruct (ReadFacts.show_run req w) as (_ & _ & ->).
    destruct (next_fault w), (rows w !! params_id req); eauto.
  - destruct (WriteFacts.destroy_effect req w)
      as [([err ->] & _)|[(_ & _ & -> & _)|(old & _ & _ & -> & _)]]; eauto.
Qed.

(** X8. [update] of src/controllers/userController.ts can reject, and only
    in one way: [reload], which is outside every [try], rejects after the
    write was committed. The request then gets no answer although the row
    has been rewritten. *)
Theorem update_rejects_only_after_commit (req : request) (w : world) (e : value) :
  outcome (UserController.update req w) = Throw e ->
  exists old,
    rows w !! params_id req = Some old /\
    update_failures req = [] /\
    last (trace (UserController.update req w)) = Some (EReload (params_id req)) /\
    ECommit (next_tx w) ∈ trace (UserController.update req w) /\
    rows (final (UserController.update req w)) !! params_id req
      = Some (setters (omit_undefined (update_values req)) ∪ old).
Proof.
  intros Ho.
  destruct (UserControllerFacts.update_cases req w)
    as [(_ & [err Ho'] & _)|[(_ & _ & Ho' & _)|(old & _ & Hold &
         [(_ & Ho' & _)|[(_ & [err Ho'] & _)|[(_ & [err Ho'] & _)|
          (Hnil & Ht & Hrow & _)]]])]];
    try (rewrite Ho' in Ho; discriminate Ho).
  exists old. rewrite Ht. repeat split; try done.
  do 3 right. by left.
Qed.

Ltac same_resp :=
  match goal with
  | Ho : outcome ?r = Normal ?resp, Ho' : outcome ?r = _ |- _ =>
      rewrite Ho' in Ho; first [discriminate Ho | injection Ho as <-]
  end.

(** X9. A mutating request that is answered with anything but 200 or 201
    leaves the table exactly as it was: in
    src/controllers/userController.ts a fault inside the transaction is
    rolled back before the 500 is sent, and in both controller sources a
    404 or 422 is sent before any write. *)
Theorem unsuccessful_requests_leave_the_table (req : request) (w : world)
    (r : result response) (resp : response) :
  r ∈ [UserController.create req w; UserController.update req w;
       UserController.destroy req w; DirectUserController.create req w;
       DirectUserController.update req w; DirectUserController.destroy req w] ->
  outcome r = Normal resp -> statusCode resp <> 200 -> statusCode resp <> 201 ->
  rows (final r) = rows w.
Proof.
  intros Hr Ho H200 H201.
  repeat (apply elem_of_cons in Hr as [->|Hr]); [| | | | | |by apply elem_of_nil in Hr].
  - destruct (WriteFacts.create_effect req w)
      as [(_ & Ho' & ->)|[(_ & _ & Hrows)|(_ & Ho' & _)]]; try done.
    same_resp. by destruct H201.
  - destruct (WriteFacts.update_effect req w)
      as [(_ & Hrows)|[(_ & _ & _ & Hrows)|(old & _ & _ &
           [(_ & _ & Hrows)|(_ & _ & [(err & Ho' & _)|Ho'])])]]; try done;
      same_resp. by destruct H200.
  - destruct (WriteFacts.destroy_effect req w)
      as [(_ & Hrows)|[(_ & _ & _ & Hrows)|(old & _ & _ & Ho' & _)]]; try done.
    same_resp. by destruct H200.
  - destruct (WriteFacts.direct_create_effect req w)
      as [(_ & Ho' & ->)|[(_ & _ & Hrows)|(_ & _ & Ho' & _)]]; try done.
    same_resp. by destruct H201.
  - destruct (WriteFacts.direct_update_effect req w)
      as [(_ & Hrows)|[(_ & _ & _ & Hrows)|(old & _ & _ &
           [(_ & _ & Hrows)|[(_ & _ & Hrows)|(_ & _ & [(err & Ho' & _)|Ho'])]])]];
      try done; same_resp. by destruct H200.
  - destruct (WriteFacts.direct_destroy_effect req w)
      as [(_ & Hrows)|[(_ & _ & _ & Hrows)|(old & _ & _ &
           [(_ & Hrows)|(Ho' & _)])]]; try done.
    same_resp. by destruct H200.
Qed.

(** X10. After a create answered 201, in both controller sources, the table
    holds under the new key exactly the row whose representation the
    answer carries, every other row is as it was, and a [show] of the new
    key whose lookup meets no fault answers with the same data. *)
Theorem show_after_create (req : request) (w : world)
    (r : result response) (resp : response) :
  r = UserController.create req w \/ r = DirectUserController.create req w ->
  outcome r = Normal resp -> statusCode resp = 201 ->
  next_fault (final r) = None ->
  let key := pretty (next_pk w) in
  exists row,
    sent resp = Data (convert_values key row) /\
    rows (final r) !! key = Some row /\
    (forall id, id <> key -> rows (final r) !! id = rows w !! id) /\
    outcome (UserController.show {| params_id := key; body := ∅ |} (final r))
      = Normal (res_send (Data (convert_values key row))) /\
    outcome (DirectUserController.show {| params_id := key; body := ∅ |} (final r))
      = Normal (res_send (Data (convert_values key row))).
Proof.
  intros Hr Ho Hs Hf key.
  assert (Hcase : sent resp = Data (convert_values key (setters (create_values req w)))
                  /\ rows (final r) = <[key := setters (create_values req w)]> (rows w)).
  { destruct Hr as [->| ->].
    - destruct (WriteFacts.create_effect req w)
        as [(_ & Ho' & _)|[(_ & [err Ho'] & _)|(_ & Ho' & Hrows & _)]];
        same_resp; try discriminate Hs. done.
    - destruct (WriteFacts.direct_create_effect req w)
        as [(_ & Ho' & _)|[(_ & (err & _ & Ho') & _)|(_ & _ & Ho' & Hrows & _)]];
        same_resp; try discriminate Hs. done. }
  destruct Hcase as [Hsent Hrows].
  assert (Hrow : rows (final r) !! key = Some (setters (create_values req w)))
    by (rewrite Hrows; apply lookup_insert_eq).
  exists (setters (create_values req w)). split; [done|]. split; [done|].
  split; [|split].
  - intros id Hne. rewrite Hrows. by apply lookup_insert_ne.
  - destruct (ReadFacts.show_run {| params_id := key; body := ∅ |} (final r))
      as (_ & _ & ->).
    cbn [params_id]. by rewrite Hf, Hrow.
  - destruct (ReadFacts.direct_show_run {| params_id := key; body := ∅ |} (final r))
      as (_ & _ & ->).
    cbn [params_id]. by rewrite Hf, Hrow.
Qed.

(** X11. After an update answered 200, in both controller sources, a [show]
    of the same id whose lookup meets no fault gives the very answer the
    update gave; the rows under other ids are as they were. *)
Theorem show_after_update (req : request) (w : world)
    (r : result response) (resp : response) :
  r = UserController.update req w \/ r = DirectUserController.update req w ->
  outcome r = Normal resp -> statusCode resp = 200 ->
  next_fault (final r) = None ->
  outcome (UserController.show req (final r)) = Normal resp /\
  outcome (DirectUserController.show req (final r)) = Normal resp /\
  forall id, id <> params_id req -> rows (final r) !! id = rows w !! id.
Proof.
  intros Hr Ho Hs Hf.
  assert (Hcase : exists old, rows w !! params_id req = Some old /\
            resp = res_send (Data (convert_values (params_id req)
                                     (setters (omit_undefined (update_values req)) ∪ old))) /\
            rows (final r) = alter (fun row => setters (omit_undefined (update_values req)) ∪ row)
                               (params_id req) (rows w)).
  { destruct Hr as [->| ->].
    - destruct (WriteFacts.update_effect req w)
        as [([err Ho'] & _)|[(_ & _ & Ho' & _)|(old & _ & Hold &
             [(_ & Ho' & _)|(_ & Hrows & [(err & Ho' & _)|Ho'])])]];
        same_resp; try discriminate Hs. eauto.
    - destruct (WriteFacts.direct_update_effect req w)
        as [((err & _ & Ho') & _)|[(_ & _ & Ho' & _)|(old & _ & Hold &
             [(_ & Ho' & _)|[(_ & [err Ho'] & _)|
              (_ & Hrows & [(err & Ho' & _)|Ho'])]])]];
        same_resp; try discriminate Hs. eauto. }
  destruct Hcase as (old & Hold & -> & Hrows).
  assert (Hrow : rows (final r) !! params_id req
                 = Some (setters (omit_undefined (update_values req)) ∪ old))
    by (rewrite Hrows, lookup_alter_eq, Hold; done).
  split; [|split].
  - destruct (ReadFacts.show_run req (final r)) as (_ & _ & ->).
    by rewrite Hf, Hrow.
  - destruct (ReadFacts.direct_show_run req (final r)) as (_ & _ & ->).
    by rewrite Hf, Hrow.
  - intros id Hne. rewrite Hrows. by apply lookup_alter_ne.
Qed.

(** X12. A destroy answered 200, in both controller sources, answers with
    the representation of the row as it was stored before, removes that row
    and no other, and a [show] or a second [destroy] of the same id whose
    lookup meets no fault is answered 404. *)
Theorem gone_after_destroy (req : request) (w : world)
    (r : result response) (resp : response) :
  r = UserController.destroy req w \/ r = DirectUserController.destroy req w ->
  outcome r = Normal resp -> statusCode resp = 200 ->
  next_fault (final r) = None ->
  (exists old, rows w !! params_id req = Some old /\
               sent resp = Data (convert_values (params_id req) old)) /\
  rows (final r) = delete (params_id req) (rows w) /\
  Forall (fun r' => outcome r'
                    = Normal (res_status_send 404 (Errors [resourceNotFound])))
    [UserController.show req (final r); DirectUserController.show req (final r);
     UserController.destroy req (final r);
     DirectUserController.destroy req (final r)].
Proof.
  intros Hr Ho Hs Hf.
  assert (Hcase : exists old, rows w !! params_id req = Some old /\
            resp = res_send (Data (convert_values (params_id req) old)) /\
            rows (final r) = delete (params_id req) (rows w)).
  { destruct Hr as [->| ->].
    - destruct (WriteFacts.destroy_effect req w)
        as [([err Ho'] & _)|[(_ & _ & Ho' & _)|(old & _ & Hold & Ho' & Hrows)]];
        same_resp; try discriminate Hs. eauto.
    - destruct (WriteFacts.direct_destroy_effect req w)
        as [((err & _ & Ho') & _)|[(_ & _ & Ho' & _)|(old & _ & Hold &
             [([err Ho'] & _)|(Ho' & Hrows)])]];
        same_resp; try discriminate Hs. eauto. }
  destruct Hcase as (old & Hold & -> & Hrows).
  assert (Hgone : rows (final r) !! params_id req = None)
    by (rewrite Hrows; apply lookup_delete_eq).
  assert (Hnf : forall e, next_fault (final r) = Some e -> False)
    by (intros e E; rewrite E in Hf; discriminate).
  assert (Hno : forall x, rows (final r) !! params_id req = Some x -> False)
    by (intros x E; rewrite E in Hgone; discriminate).
  split; [eauto|]. split; [done|].
  repeat first [apply List.Forall_cons | apply List.Forall_nil].
  - destruct (ReadFacts.show_run req (final r)) as (_ & _ & ->).
    by rewrite Hf, Hgone.
  - destruct (ReadFacts.direct_show_run req (final r)) as (_ & _ & ->).
    by rewrite Hf, Hgone.
  - destruct (WriteFacts.destroy_effect req (final r))
      as [([err Ho'] & _)|[(_ & _ & Ho' & _)|(x & _ & E & _)]];
      [|done|by destruct (Hno x)].
    exfalso. revert Ho'.
    destruct (UserControllerFacts.destroy_cases req (final r))
      as [([e E] & _)|[(_ & _ & -> & _)|(x & _ & E & _)]];
      [by destruct (Hnf e)|discriminate|by destruct (Hno x)].
  - destruct (WriteFacts.direct_destroy_effect req (final r))
      as [((e & E & _) & _)|[(_ & _ & Ho' & _)|(x & _ & E & _)]];
      [by destruct (Hnf e)|done|by destruct (Hno x)].
Qed.

(** X13. An update answered 200, in both controller sources, leaves a field
    the payload omits as it was stored, provided the model's setters put no
    value of their own on a field they are not given. The sanitized data
    holds the omitted field as [undefined], [user.update] drops the
    undefined values, and so the setters are not given it. The answer
    carries the representation of the row as stored after the write. *)
Theorem update_keeps_omitted_fields (req : request) (w : world)
    (r : result response) (resp : response) (f : string) :
  r = UserController.update req w \/ r = DirectUserController.update req w ->
  outcome r = Normal resp -> statusCode resp = 200 ->
  body req !! f = None ->
  (forall values, values !! f = None -> setters values !! f = None) ->
  exists old new,
    rows w !! params_id req = Some old /\
    rows (final r) !! params_id req = Some new /\
    new !! f = old !! f /\
    sent resp = Data (convert_values (params_id req) new).
Proof.
  intros Hr Ho Hs Hb Hset.
  specialize (Hset _ (EndpointFacts.update_given_omitted req f Hb)).
  assert (Hcase : exists old, rows w !! params_id req = Some old /\
            resp = res_send (Data (convert_values (params_id req)
                                     (setters (omit_undefined (update_values req)) ∪ old))) /\
            rows (final r) = alter (fun row => setters (omit_undefined (update_values req)) ∪ row)
                               (params_id req) (rows w)).
  { destruct Hr as [->| ->].
    - destruct (WriteFacts.update_effect req w)
        as [([err Ho'] & _)|[(_ & _ & Ho' & _)|(old & _ & Hold &
             [(_ & Ho' & _)|(_ & Hrows & [(err & Ho' & _)|Ho'])])]];
        same_resp; try discriminate Hs. eauto.
    - destruct (WriteFacts.direct_update_effect req w)
        as [((err & _ & Ho') & _)|[(_ & _ & Ho' & _)|(old & _ & Hold &
             [(_ & Ho' & _)|[(_ & [err Ho'] & _)|
              (_ & Hrows & [(err & Ho' & _)|Ho'])]])]];
        same_resp; try discriminate Hs. eauto. }
  destruct Hcase as (old & Hold & -> & Hrows).
  exists old, (setters (omit_undefined (update_values req)) ∪ old).
  split; [done|]. split; [by rewrite Hrows, lookup_alter_eq, Hold|].
  split; [by apply lookup_union_r|done].
Qed.

(** X14. While the store signals no fault, the status of the answer of
    src/controllers/userController.ts is settled by the payload and the
    lookup alone: [create] answers 201 when the payload passes the schema
    and 422 otherwise; [update] answers 404 when no row is stored under the
    id, whatever the payload, and otherwise 200 or 422 by the payload;
    [destroy] and [show] answer 200 or 404 by the lookup; [index] answers
    200. *)
Theorem healthy_store_status (req : request) (w : world) :
  plan w = [] ->
  Compare.answers (UserController.index req w) 200 /\
  Compare.answers (UserController.create req w)
    (match create_failures req with [] => 201 | _ :: _ => 422 end) /\
  Compare.answers (UserController.show req w)
    (match rows w !! params_id req with Some _ => 200 | None => 404 end) /\
  Compare.answers (UserController.update req w)
    (match rows w !! params_id req with
     | Some _ => match update_failures req with [] => 200 | _ :: _ => 422 end
     | None => 404
     end) /\
  Compare.answers (UserController.destroy req w)
    (match rows w !! params_id req with Some _ => 200 | None => 404 end).
Proof.
  intros Hplan. unfold Compare.answers, create_failures, update_failures.
  split; [|split; [|split; [|split]]].
  - unfold UserController.index. healthy w Hplan. eauto.
  - unfold UserController.create, UserController.respond_500.
    healthy w Hplan; eauto.
  - unfold UserController.show, UserController.getUserById,
      UserController.respond_500.
    healthy w Hplan; eauto.
  - unfold UserController.update, UserController.getUserById,
      UserController.respond_500.
    healthy w Hplan; eauto.
  - unfold UserController.destroy, UserController.getUserById,
      UserController.respond_500.
    healthy w Hplan; eauto.
Qed.

End Facts.
End MoreEndpointFacts.

(** ** More on the internal-error class *)

Module SerializableFacts.
Import InternalServerError Shape.

Lemma stringify_array_parts (items : list value) :
  JSON_stringify (VArray items)
  = bind (serialize_elements SerializeJSONProperty items) (fun parts =>
    Normal (Some ("[" ++ join_comma parts ++ "]"))).
Proof. reflexivity. Qed.

Lemma stringify_object_parts (props : list (string * value)) :
  JSON_stringify (VObject props)
  = bind (serialize_members SerializeJSONProperty props) (fun parts =>
    Normal (Some ("{" ++ join_comma parts ++ "}"))).
Proof. reflexivity. Qed.

Lemma serialize_elements_by_shape (items : list value) :
  List.Forall stringify_by_shape items ->
  if existsb unserializable items
  then exists e, serialize_elements SerializeJSONProperty items = Throw e
  else exists parts, serialize_elements SerializeJSONProperty items = Normal parts.
Proof.
  induction 1 as [|x r Hx _ IH]; [by eexists|].
  cbn [existsb serialize_elements]. unfold stringify_by_shape, JSON_stringify in Hx.
  destruct (unserializable x); cbn [orb].
  - destruct Hx as [e ->]. by eexists.
  - destruct Hx as (t & -> & _). cbn [bind].
    destruct (existsb unserializable r).
    + destruct IH as [e ->]. by eexists.
    + destruct IH as [parts ->]. by eexists.
Qed.

Lemma serialize_members_by_shape (props : list (string * value)) :
  List.Forall (fun kv => stringify_by_shape kv.2) props ->
  if existsb (fun kv => unserializable kv.2) props
  then exists e, serialize_members SerializeJSONProperty props = Throw e
  else exists parts, serialize_members SerializeJSONProperty props = Normal parts.
Proof.
  induction 1 as [|[k x] r Hx _ IH]; [by eexists|].
  cbn [existsb serialize_members snd] in *.
  unfold stringify_by_shape, JSON_stringify in Hx.
  destruct (unserializable x); cbn [orb].
  - destruct Hx as [e ->]. by eexists.
  - destruct Hx as (t & -> & _). cbn [bind].
    destruct (existsb _ r).
    + destruct IH as [e ->]. by eexists.
    + destruct IH as [parts ->]. by eexists.
Qed.

Lemma stringify_shape (v : value) : stringify_by_shape v.
Proof.
  induction v using value_nested_ind; unfold stringify_by_shape;
    try (cbn; eexists; split; [reflexivity|]; split; [done|discriminate]);
    try (cbn; by eexists).
  - destruct b; cbn; eexists; (split; [reflexivity|]); split; done.
  - destruct n as [z| |[|]]; cbn; eexists; (split; [reflexivity|]); split; done.
  - rewrite stringify_array_parts. cbn [unserializable].
    pose proof (serialize_elements_by_shape items H) as Hs.
    destruct (existsb unserializable items).
    + destruct Hs as [e ->]. by eexists.
    + destruct Hs as [parts ->]. cbn. eexists. split; [reflexivity|]. split; done.
  - rewrite stringify_object_parts. cbn [unserializable].
    pose proof (serialize_members_by_shape props H) as Hs.
    destruct (existsb _ props).
    + destruct Hs as [e ->]. by eexists.
    + destruct Hs as [parts ->]. cbn. eexists. split; [reflexivity|]. split; done.
Qed.

(** [isSerializable] answers [false], and does not throw, for every value
    that holds a [BigInt] or a circular reference at any depth, and for
    [undefined], a symbol or a function; so a value it answers [true] for
    holds none of these and has a JSON text. *)
Lemma unserializable_values_are_refused (v : value) :
  (unserializable v || renders_undefined v = true ->
   isSerializable v = Normal false) /\
  (isSerializable v = Normal true ->
   unserializable v = false /\ renders_undefined v = false /\
   exists s, JSON_stringify v = Normal (Some s)).
Proof.
  assert (Hrefuse : unserializable v || renders_undefined v = true ->
                    isSerializable v = Normal false).
  { intros Hv. pose proof (stringify_shape v) as Hs.
    unfold stringify_by_shape in Hs. unfold isSerializable.
    destruct (unserializable v).
    - destruct Hs as [e ->]. reflexivity.
    - destruct Hs as (t & -> & Ht). cbn in Hv. apply Ht in Hv as ->.
      cbn [bind try_catch].
      destruct InternalServerErrorFacts.JSON_parse_undefined as [e ->].
      reflexivity. }
  split; [exact Hrefuse|].
  intros Htrue.
  destruct (unserializable v || renders_undefined v) eqn:Hv.
  - rewrite Hrefuse in Htrue by done. discriminate.
  - apply orb_false_elim in Hv as [-> ->]. split; [done|]. split; [done|].
    by apply InternalServerErrorFacts.isSerializable_true.
Qed.

(** X15. Serializing twice is the same as serializing once: [toJSON]
    called on the instance a first call left gives that instance and the
    same entry again. *)
Theorem toJSON_twice (this o : t) (e : entry) :
  toJSON this = Normal (o, e) -> toJSON o = Normal (o, e).
Proof.
  unfold toJSON. destruct this as [n m c F d].
  unfold set_detail; cbn [bind error statusCode name message detail].
  destruct (instanceof_Error F) eqn:HE;
    unfold set_detail; cbn [bind error statusCode name message detail].
  - destruct (getReasonPhrase c) eqn:Hc; cbn [bind]; [|discriminate].
    intros [= <- <-]. cbn [bind error statusCode name message detail].
    rewrite HE. cbn [bind error statusCode name message detail].
    rewrite Hc. reflexivity.
  - destruct (InternalServerErrorFacts.isSerializable_returns F) as [Hs|Hs];
      rewrite Hs; cbn [bind error statusCode name message detail].
    + destruct (InternalServerErrorFacts.isSerializable_true F Hs) as [s Hj].
      rewrite Hj. cbn [bind error statusCode name message detail].
      destruct (getReasonPhrase c) eqn:Hc; cbn [bind]; [|discriminate].
      intros [= <- <-]. cbn [bind error statusCode name message detail].
      rewrite HE, Hs. cbn [bind]. rewrite Hj.
      cbn [bind error statusCode name message detail].
      rewrite Hc. reflexivity.
    + destruct (getReasonPhrase c) eqn:Hc; cbn [bind]; [|discriminate].
      intros [= <- <-]. cbn [bind error statusCode name message detail].
      rewrite HE, Hs. cbn [bind error statusCode name message detail].
      rewrite Hc. reflexivity.
Qed.

End SerializableFacts.

(** ** [JSON.parse] accepts what [JSON.stringify] writes *)

Module RoundTripFacts.
Import InternalServerError Shape Reading.

Lemma append_assoc (a b c : string) : (a ++ b) ++ c = a ++ (b ++ c).
Proof. induction a as [|x a IH]; [done|]. change (String x ((a ++ b) ++ c) = String x (a ++ (b ++ c))). by rewrite IH. Qed.

(** One quoted code unit is read back as one step of the scanner. *)
Lemma scan_quote_char (c : ascii) (r : string) (seen : list ascii) :
  exists seen', scan_string (quote_char c ++ r) seen = scan_string r seen'.
Proof.
  destruct c as [[] [] [] [] [] [] [] []]; eexists; reflexivity.
Qed.

Lemma scan_quote_chars (s rest : string) (seen : list ascii) :
  exists seen', scan_string (quote_chars s ++ dquote ++ rest) seen = Some (seen', rest).
Proof.
  revert seen. induction s as [|c s IH]; intros seen.
  - eexists. reflexivity.
  - cbn [quote_chars]. rewrite append_assoc.
    destruct (scan_quote_char c (quote_chars s ++ dquote ++ rest) seen) as [seen' ->].
    apply IH.
Qed.

Lemma parse_quoted (s rest : string) :
  exists lit, parse_string (quote_chars s ++ dquote ++ rest) = Some (lit, rest).
Proof.
  unfold parse_string. destruct (scan_quote_chars s rest []) as [seen ->]. by eexists.
Qed.

Lemma span_digits_stops (rest : string) :
  stops rest = true -> span_digits rest = ("", rest).
Proof.
  destruct rest as [|c r]; [done|]. cbn [stops span_digits]. intros Hs.
  assert (is_digit c = false) as ->; [|done].
  unfold is_digit. destruct (N_of_ascii c); [done|].
  repeat (apply orb_prop in Hs as [Hs|Hs]); apply N.eqb_eq in Hs; by inversion Hs.
Qed.

Lemma append_cons (c : ascii) (s r : string) : String c s ++ r = String c (s ++ r).
Proof. reflexivity. Qed.

Lemma append_nil (r : string) : "" ++ r = r.
Proof. reflexivity. Qed.

Lemma span_digits_cons (c : ascii) (r : string) :
  span_digits (String c r)
  = if is_digit c then let '(d, r') := span_digits r in (String c d, r')
    else ("", String c r).
Proof. reflexivity. Qed.

Ltac known_char f :=
  match goal with
  | |- context [f ?c] =>
      let b := eval vm_compute in (f c) in change (f c) with b
  end.

Lemma span_digits_uint (u : Decimal.uint) (rest : string) :
  stops rest = true ->
  span_digits (NilEmpty.string_of_uint u ++ rest) = (NilEmpty.string_of_uint u, rest).
Proof.
  intros Hs. induction u; cbn [NilEmpty.string_of_uint];
    rewrite ?append_cons, ?append_nil;
    [by apply span_digits_stops|..];
    rewrite span_digits_cons; known_char is_digit; by rewrite IHu.
Qed.

Lemma nzhead_not_D0 (u u' : Decimal.uint) : Decimal.nzhead u <> Decimal.D0 u'.
Proof. induction u; cbn; try done. Qed.

Lemma to_uint_not_D0 (p : positive) (u : Decimal.uint) : Pos.to_uint p <> Decimal.D0 u.
Proof.
  intros E.
  assert (Hn : Decimal.unorm (Pos.to_uint p) = Pos.to_uint p).
  { rewrite <- DecimalPos.Unsigned.to_of, DecimalPos.Unsigned.of_to. reflexivity. }
  rewrite E in Hn. unfold Decimal.unorm in Hn. cbn [Decimal.nzhead] in Hn.
  destruct (Decimal.nzhead u) eqn:Hz.
  - injection Hn as <-. by apply (DecimalPos.Unsigned.to_uint_nonzero p).
  - rewrite <- Hz in Hn. by apply nzhead_not_D0 in Hn.
  - discriminate. - discriminate. - discriminate. - discriminate.
  - discriminate. - discriminate. - discriminate. - discriminate. - discriminate.
Qed.

Lemma parse_int_part_uint (p : positive) (rest : string) :
  stops rest = true ->
  parse_int_part (NilEmpty.string_of_uint (Pos.to_uint p) ++ rest)
  = Some (NilEmpty.string_of_uint (Pos.to_uint p), rest).
Proof.
  intros Hs. pose proof (to_uint_not_D0 p) as H0.
  pose proof (DecimalPos.Unsigned.to_uint_nonnil p) as Hnil.
  destruct (Pos.to_uint p) as [|u|u|u|u|u|u|u|u|u|u]; [done|by destruct (H0 u)|..];
    cbn [NilEmpty.string_of_uint]; rewrite append_cons; unfold parse_int_part;
    known_char N_of_ascii; known_char is_digit;
    cbn [N.eqb Pos.eqb]; by rewrite span_digits_uint.
Qed.

Lemma parse_frac_exp_stops (rest : string) :
  stops rest = true ->
  parse_frac_part rest = Some ("", rest) /\ parse_exp_part rest = Some ("", rest).
Proof.
  destruct rest as [|c r]; [done|]. cbn [stops parse_frac_part parse_exp_part].
  intros Hs.
  assert (Hc : N_of_ascii c = 44%N \/ N_of_ascii c = 93%N \/ N_of_ascii c = 125%N).
  { repeat (apply orb_prop in Hs as [Hs|Hs]); apply N.eqb_eq in Hs; auto. }
  destruct Hc as [-> |[-> | ->]]; done.
Qed.

Lemma append_empty_r (s : string) : s ++ "" = s.
Proof. induction s as [|c s IH]; [done|]. by rewrite append_cons, IH. Qed.

Lemma parse_number_plain (c : ascii) (r i s1 : string) :
  (N_of_ascii c =? 45)%N = false ->
  parse_int_part (String c r) = Some (i, s1) -> stops s1 = true ->
  parse_number (String c r) = Some (i, s1).
Proof.
  intros Hc Hint Hs. destruct (parse_frac_exp_stops s1 Hs) as [Hfr Hex].
  unfold parse_number. rewrite Hc, Hint.
  cbn -[parse_frac_part parse_exp_part]. rewrite Hfr.
  cbn -[parse_frac_part parse_exp_part]. rewrite Hex.
  cbn. by rewrite !append_empty_r.
Qed.

Lemma parse_number_minus (r i s1 : string) :
  parse_int_part r = Some (i, s1) -> stops s1 = true ->
  parse_number (String "-" r) = Some (String "-" i, s1).
Proof.
  intros Hint Hs. destruct (parse_frac_exp_stops s1 Hs) as [Hfr Hex].
  unfold parse_number. change (N_of_ascii "-" =? 45)%N with true. cbv iota.
  rewrite Hint.
  cbn -[parse_frac_part parse_exp_part]. rewrite Hfr.
  cbn -[parse_frac_part parse_exp_part]. rewrite Hex.
  cbn. by rewrite !append_empty_r.
Qed.

Lemma parse_number_int (z : Z) (rest : string) :
  stops rest = true ->
  parse_number (decimal z ++ rest) = Some (decimal z, rest).
Proof.
  intros Hs.
  unfold decimal, NilEmpty.string_of_int, Z.to_int.
  destruct z as [|p|p].
  - by apply parse_number_plain.
  - pose proof (parse_int_part_uint p rest Hs) as Hint.
    pose proof (DecimalPos.Unsigned.to_uint_nonnil p) as Hnil.
    destruct (Pos.to_uint p) eqn:Hp; [done|..];
      cbn [NilEmpty.string_of_uint] in *; rewrite append_cons in *;
      by apply parse_number_plain.
  - rewrite append_cons. apply parse_number_minus; [|done].
    by apply parse_int_part_uint.
Qed.

Lemma parse_elements_step (f : nat) (s : string) (seen : list json) (v : json) (r : string) :
  parse_value f s = Some (v, r) ->
  parse_elements (S f) s seen =
    match skip_ws r with
    | String c r' =>
        if (N_of_ascii c =? 44)%N then parse_elements f r' (v :: seen)
        else if (N_of_ascii c =? 93)%N then Some (JArray (rev (v :: seen)), r')
        else None
    | EmptyString => None
    end.
Proof. intros Hv. cbn [parse_elements]. rewrite Hv. reflexivity. Qed.

Lemma parse_members_step (f : nat) (r0 : string) (seen : list (string * json))
    (k : string) (r2 : string) (v : json) (r3 : string) :
  parse_string r0 = Some (k, String ":" r2) ->
  parse_value f r2 = Some (v, r3) ->
  parse_members (S f) (String (ascii_of_N 34) r0) seen =
    match skip_ws r3 with
    | String d r4 =>
        if (N_of_ascii d =? 44)%N then parse_members f r4 ((k, v) :: seen)
        else if (N_of_ascii d =? 125)%N then Some (JObject (rev ((k, v) :: seen)), r4)
        else None
    | EmptyString => None
    end.
Proof.
  intros Hk Hv. cbn [parse_members]. cbn [skip_ws]. 
  change (is_ws (ascii_of_N 34)) with false. cbv iota.
  change (N_of_ascii (ascii_of_N 34) =? 34)%N with true. cbv iota.
  rewrite Hk. cbn [mbind option_bind]. cbn [skip_ws].
  change (is_ws ":") with false. cbv iota.
  change (N_of_ascii ":" =? 58)%N with true. cbv iota.
  rewrite Hv. reflexivity.
Qed.

Lemma parse_value_string (f : nat) (r lit r' : string) :
  parse_string r = Some (lit, r') ->
  parse_value (S f) (String (ascii_of_N 34) r) = Some (JString lit, r').
Proof.
  intros Hs. cbn [parse_value skip_ws].
  change (is_ws (ascii_of_N 34)) with false. cbv iota.
  change (N_of_ascii (ascii_of_N 34)) with 34%N. cbn [N.eqb Pos.eqb].
  rewrite Hs. reflexivity.
Qed.

Lemma parse_value_array (f : nat) (s : string) :
  value_start s = true ->
  parse_value (S f) (String "[" s) = parse_elements f s [].
Proof.
  destruct s as [|c r]; [done|]. cbn [value_start]. intros Hs.
  apply andb_prop in Hs as [Hw Hc]. apply negb_true_iff in Hw, Hc.
  cbn [parse_value skip_ws]. change (is_ws "[") with false. cbv iota.
  change (N_of_ascii "[") with 91%N. cbn [N.eqb Pos.eqb skip_ws].
  rewrite Hw, Hc. reflexivity.
Qed.

Lemma parse_value_object (f : nat) (r : string) :
  parse_value (S f) (String "{" (String (ascii_of_N 34) r))
  = parse_members f (String (ascii_of_N 34) r) [].
Proof. reflexivity. Qed.

Lemma parse_value_number (f : nat) (c : ascii) (r lit r' : string) :
  is_digit c = true \/ c = "-"%char ->
  parse_number (String c r) = Some (lit, r') ->
  parse_value (S f) (String c r) = Some (JNumber lit, r').
Proof.
  destruct c as [[] [] [] [] [] [] [] []]; intros [Hc|Hc] Hn;
    try discriminate Hc;
    lazy -[parse_number]; rewrite Hn; reflexivity.
Qed.

Lemma length_append (a b : string) :
  String.length (a ++ b) = (String.length a + String.length b)%nat.
Proof.
  induction a as [|c a IH]; [done|]. rewrite append_cons. cbn [String.length].
  by rewrite IH.
Qed.

Lemma fold_join (ps : list string) (a b : string) :
  fold_left (fun acc q => acc ++ "," ++ q) ps (a ++ b)
  = a ++ fold_left (fun acc q => acc ++ "," ++ q) ps b.
Proof.
  revert b. induction ps as [|p ps IH]; intros b; [done|].
  cbn [fold_left]. rewrite append_assoc. apply IH.
Qed.

Lemma join_comma_cons (p q : string) (ps : list string) :
  join_comma (p :: q :: ps) = p ++ "," ++ join_comma (q :: ps).
Proof.
  unfold join_comma. cbn [fold_left]. rewrite fold_join.
  f_equal. change ("," ++ q) with (String "," q).
  change (String "," q) with ("," ++ q). by rewrite fold_join.
Qed.

Lemma parses_mono (n m : nat) (s : string) :
  parses n s -> (n <= m)%nat -> (m <= String.length s)%nat -> parses m s.
Proof.
  intros (Hs & Hl & Hp) Hnm Hm. split; [done|]. split; [done|].
  intros rest fuel Hr Hf. apply Hp; [done|lia].
Qed.

Lemma parses_atom (s : string) (j : json) :
  value_start s = true -> (1 <= String.length s)%nat ->
  (forall f rest, parse_value (S f) (s ++ rest) = Some (j, rest)) ->
  parses 1 s.
Proof.
  intros Hs Hl Hp. split; [done|]. split; [done|].
  intros rest [|f] Hr Hf; [lia|]. eauto.
Qed.

Lemma elements_parse (M : nat) (parts : list string) :
  parts <> [] ->
  List.Forall (fun p => exists n, (n <= M)%nat /\ parses n p) parts ->
  forall rest fuel seen, (length parts + M <= fuel)%nat ->
    exists j, parse_elements fuel (join_comma parts ++ "]" ++ rest) seen = Some (j, rest).
Proof.
  intros Hne Hall. induction Hall as [|p ps (n & Hn & _ & _ & Hp) Hps IH]; [done|].
  intros rest [|f] seen Hf; [cbn in Hf; lia|]. cbn [length] in Hf.
  destruct ps as [|q ps].
  - change (join_comma [p]) with p.
    destruct (Hp ("]" ++ rest) f) as [j Hj]; [done|lia|].
    rewrite (parse_elements_step _ _ _ _ _ Hj). by eexists.
  - rewrite join_comma_cons, !append_assoc.
    destruct (Hp ("," ++ join_comma (q :: ps) ++ "]" ++ rest) f) as [j Hj]; [done|lia|].
    rewrite (parse_elements_step _ _ _ _ _ Hj).
    change (skip_ws ("," ++ ?x)) with (String "," x).
    rewrite append_cons, append_nil. cbn [skip_ws].
    change (is_ws ",") with false. cbv iota.
    change (N_of_ascii "," =? 44)%N with true. cbv iota.
    apply IH; [done|]. cbn [length] in *. lia.
Qed.

Lemma members_parse (M : nat) (parts : list string) :
  parts <> [] ->
  List.Forall (fun p => exists n, (n <= M)%nat /\ member_parses n p) parts ->
  forall rest fuel seen, (length parts + M <= fuel)%nat ->
    exists j, parse_members fuel (join_comma parts ++ "}" ++ rest) seen = Some (j, rest).
Proof.
  intros Hne Hall. induction Hall as [|p ps (n & Hn & _ & Hp) Hps IH]; [done|].
  intros rest [|f] seen Hf; [cbn in Hf; lia|]. cbn [length] in Hf.
  destruct ps as [|q ps].
  - change (join_comma [p]) with p.
    destruct (Hp ("}" ++ rest) f) as (r0 & k & r2 & j & -> & Hk & Hj); [done|lia|].
    rewrite (parse_members_step _ _ _ _ _ _ _ Hk Hj). by eexists.
  - rewrite join_comma_cons, !append_assoc.
    destruct (Hp ("," ++ join_comma (q :: ps) ++ "}" ++ rest) f)
      as (r0 & k & r2 & j & -> & Hk & Hj); [done|lia|].
    rewrite (parse_members_step _ _ _ _ _ _ _ Hk Hj).
    rewrite append_cons, append_nil. cbn [skip_ws].
    change (is_ws ",") with false. cbv iota.
    change (N_of_ascii "," =? 44)%N with true. cbv iota.
    apply IH; [done|]. cbn [length] in *. lia.
Qed.

Lemma member_text (k t : string) (n : nat) :
  parses n t -> member_parses n (QuoteJSONString k ++ ":" ++ t).
Proof.
  intros (_ & Hl & Hp). split.
  - rewrite !length_append. cbn [String.length]. lia.
  - intros rest fuel Hr Hf. destruct (Hp rest fuel Hr Hf) as [j Hj].
    destruct (parse_quoted k (":" ++ t ++ rest)) as [lit Hlit].
    exists (quote_chars k ++ dquote ++ ":" ++ t ++ rest), lit, (t ++ rest), j.
    split; [|split; [exact Hlit|exact Hj]].
    unfold QuoteJSONString. rewrite !append_assoc. reflexivity.
Qed.

Lemma join_comma_bound (parts : list string) (M : nat) :
  parts <> [] ->
  List.Forall (fun p => (1 <= String.length p)%nat) parts ->
  (M = 0%nat \/ exists p, In p parts /\ (M <= String.length p)%nat) ->
  (length parts + M <= S (String.length (join_comma parts)))%nat.
Proof.
  intros Hne Hall. revert M. induction Hall as [|p ps Hp Hps IH]; [done|].
  intros M HM. destruct ps as [|q ps].
  - cbn. destruct HM as [->|(p' & [->|[]] & Hle)]; lia.
  - rewrite join_comma_cons, !length_append. cbn [length String.length] in *.
    destruct HM as [->|(p' & [->|Hin] & Hle)].
    + specialize (IH ltac:(done) 0%nat (or_introl eq_refl)). lia.
    + specialize (IH ltac:(done) 0%nat (or_introl eq_refl)). lia.
    + specialize (IH ltac:(done) M (or_intror (ex_intro _ p' (conj Hin Hle)))). lia.
Qed.

Lemma foldr_max_attained (l : list nat) :
  foldr Nat.max 0%nat l = 0%nat \/ In (foldr Nat.max 0%nat l) l.
Proof.
  induction l as [|n l IH]; [by left|]. cbn [foldr].
  destruct (Nat.max_spec n (foldr Nat.max 0%nat l)) as [[Hlt ->]|[_ ->]].
  - destruct IH as [E|IH]; [lia|by right; right].
  - right. by left.
Qed.

Lemma foldr_max_ge (l : list nat) (n : nat) :
  In n l -> (n <= foldr Nat.max 0%nat l)%nat.
Proof.
  induction l as [|m l IH]; [done|]. cbn [foldr].
  intros [->|Hin]; [lia|]. specialize (IH Hin). lia.
Qed.

Lemma value_start_app (s r : string) :
  value_start s = true -> value_start (s ++ r) = true.
Proof. by destruct s. Qed.

Lemma parses_null (x : value) :
  renders_undefined x = true -> parses (need x) "null".
Proof.
  intros Hx. assert (need x = 1%nat) as -> by (by destruct x).
  apply (parses_atom _ JNull); [done|cbn; lia|]. reflexivity.
Qed.

Lemma elements_read_back (items : list value) (parts : list string) :
  List.Forall reads_back items ->
  serialize_elements SerializeJSONProperty items = Normal parts ->
  Forall2 (fun x p => parses (need x) p) items parts.
Proof.
  intros Hall. revert parts. induction Hall as [|x r Hx _ IH]; intros parts.
  - intros [= <-]. constructor.
  - cbn [serialize_elements].
    pose proof (SerializableFacts.stringify_shape x) as Hshape.
    unfold stringify_by_shape, JSON_stringify in Hshape.
    destruct (SerializeJSONProperty x) as [sx|e] eqn:Hsx; [|discriminate].
    cbn [bind].
    destruct (serialize_elements SerializeJSONProperty r) as [sr|e];
      [|discriminate].
    intros [= <-]. constructor; [|by apply IH].
    destruct sx as [s|]; [by apply Hx|]. cbn [default].
    apply parses_null.
    destruct (unserializable x); [by destruct Hshape|].
    destruct Hshape as (t & [= <-] & Ht). by apply Ht.
Qed.

Lemma members_read_back (props : list (string * value)) (parts : list string) :
  List.Forall (fun kv => reads_back kv.2) props ->
  serialize_members SerializeJSONProperty props = Normal parts ->
  Forall2 (fun kv p => member_parses (need kv.2) p) (List.filter present props) parts.
Proof.
  intros Hall. revert parts. induction Hall as [|[k x] r Hx _ IH]; intros parts.
  - intros [= <-]. constructor.
  - cbn [serialize_members List.filter]. cbn [snd] in Hx.
    pose proof (SerializableFacts.stringify_shape x) as Hshape.
    unfold stringify_by_shape, JSON_stringify in Hshape.
    destruct (SerializeJSONProperty x) as [sx|e] eqn:Hsx; [|discriminate].
    cbn [bind].
    destruct (serialize_members SerializeJSONProperty r) as [sr|e];
      [|discriminate].
    assert (Hpres : present (k, x) = match sx with Some _ => true | None => false end).
    { unfold present. cbn [snd].
      destruct (unserializable x); [by destruct Hshape|].
      destruct Hshape as (t & [= <-] & Ht).
      destruct sx; [|by rewrite (proj1 Ht eq_refl)].
      destruct (renders_undefined x); [|done].
      discriminate (proj2 Ht eq_refl). }
    rewrite Hpres. intros [= <-]. destruct sx as [s|]; [|by apply IH].
    constructor; [|by apply IH]. apply member_text. by apply Hx.
Qed.

Lemma number_text (z : Z) :
  exists c r, decimal z = String c r /\
              (is_digit c = true \/ c = "-"%char).
Proof.
  unfold decimal, NilEmpty.string_of_int, Z.to_int.
  destruct z as [|p|p].
  - eexists _, _. split; [reflexivity|by left].
  - pose proof (DecimalPos.Unsigned.to_uint_nonnil p) as Hnil.
    destruct (Pos.to_uint p); [done|..]; eexists _, _; (split; [reflexivity|by left]).
  - eexists _, _. split; [reflexivity|by right].
Qed.

Lemma digit_start (c : ascii) :
  is_digit c = true \/ c = "-"%char ->
  negb (is_ws c) && negb (N_of_ascii c =? 93)%N = true.
Proof.
  destruct c as [[] [] [] [] [] [] [] []]; intros [Hc|Hc];
    try discriminate Hc; reflexivity.
Qed.

Lemma parses_number (z : Z) : parses 1 (decimal z).
Proof.
  destruct (number_text z) as (c & r & Htext & Hc).
  split; [|split].
  - rewrite Htext. by apply digit_start.
  - rewrite Htext. cbn. lia.
  - intros rest [|f] Hr Hf; [lia|].
    pose proof (parse_number_int z rest Hr) as Hn.
    rewrite Htext, append_cons in *.
    eexists. by apply parse_value_number.
Qed.

Lemma parses_string (s : string) : parses 1 (QuoteJSONString s).
Proof.
  unfold QuoteJSONString. split; [done|]. split; [rewrite !length_append; cbn; lia|].
  intros rest [|f] Hr Hf; [lia|].
  destruct (parse_quoted s rest) as [lit Hlit].
  exists (JString lit). rewrite !append_assoc.
  change (dquote ++ ?x) with (String (ascii_of_N 34) x).
  by apply parse_value_string.
Qed.

Lemma forall2_bound {A} (R : nat -> string -> Prop) (f : A -> nat)
    (xs : list A) (ps : list string) (M : nat) :
  Forall2 (fun x p => R (f x) p) xs ps ->
  (forall x, In x xs -> (f x <= M)%nat) ->
  List.Forall (fun p => exists n, (n <= M)%nat /\ R n p) ps.
Proof.
  induction 1 as [|x p xs ps Hxp _ IH]; intros HM; constructor.
  - exists (f x). split; [apply HM; by left|done].
  - apply IH. intros y Hy. apply HM. by right.
Qed.

Lemma forall2_find {A} (R : A -> string -> Prop) (xs : list A) (ps : list string)
    (x : A) :
  Forall2 R xs ps -> In x xs -> exists p, In p ps /\ R x p.
Proof.
  induction 1 as [|y p xs ps Hyp _ IH]; [done|].
  intros [->|Hin]; [exists p; split; [by left|done]|].
  destruct (IH Hin) as (q & Hq & HR). exists q. split; [by right|done].
Qed.

Lemma parses_nonempty (n : nat) (p : string) : parses n p -> (1 <= String.length p)%nat.
Proof. intros (Hs & _). destruct p; [done|cbn; lia]. Qed.

Lemma value_start_join (p : string) (ps : list string) (r : string) :
  value_start p = true -> value_start (join_comma (p :: ps) ++ r) = true.
Proof.
  intros Hp. destruct ps as [|q ps].
  - by apply value_start_app.
  - rewrite join_comma_cons, append_assoc. by apply value_start_app.
Qed.

Lemma array_reads_back (items : list value) :
  List.Forall reads_back items -> reads_back (VArray items).
Proof.
  intros IH text Htext.
  rewrite SerializableFacts.stringify_array_parts in Htext.
  destruct (serialize_elements SerializeJSONProperty items) as [parts|e] eqn:Hparts;
    [|discriminate].
  injection Htext as <-.
  pose proof (elements_read_back items parts IH Hparts) as Hall.
  destruct Hall as [|x p items parts Hxp Hall].
  { change ("[" ++ join_comma [] ++ "]") with "[]".
    apply (parses_atom _ (JArray [])); [done|cbn; lia|reflexivity]. }
  assert (Hall' : Forall2 (fun x p => parses (need x) p) (x :: items) (p :: parts))
    by by constructor.
  cbn [need]. set (M := foldr Nat.max 0%nat (map need (x :: items))).
  assert (HM : List.Forall (fun p => exists n, (n <= M)%nat /\ parses n p) (p :: parts)).
  { apply (forall2_bound parses need _ _ M Hall').
    intros y Hy. apply foldr_max_ge, in_map, Hy. }
  assert (Hlen : length (p :: parts) = length (x :: items))
    by (symmetry; by eapply Forall2_length).
  split; [done|]. split.
  - rewrite append_cons, append_nil. cbn [String.length]. rewrite length_append.
    cbn [String.length]. rewrite <- Hlen.
    enough (length (p :: parts) + M <= S (String.length (join_comma (p :: parts))))%nat
      by lia.
    apply join_comma_bound; [done| |].
    + eapply List.Forall_impl; [|exact HM].
      intros q (n & _ & Hq). by eapply parses_nonempty.
    + destruct (foldr_max_attained (map need (x :: items))) as [E|Hin]; [by left|].
      right. fold M in Hin. apply in_map_iff in Hin as (y & Hy & Hin).
      destruct (forall2_find _ _ _ y Hall' Hin) as (q & Hq & (_ & Hle & _)).
      exists q. split; [done|]. lia.
  - intros rest [|f] Hr Hf; [lia|].
    rewrite append_cons, append_nil, append_cons, append_assoc.
    rewrite parse_value_array
      by (apply value_start_join; by destruct Hxp).
    apply (elements_parse M); [done|exact HM|]. rewrite Hlen. cbn [length] in *. lia.
Qed.

Lemma absent_need (kv : string * value) : present kv = false -> need kv.2 = 1%nat.
Proof. unfold present. destruct kv as [k x]. cbn [snd]. by destruct x. Qed.

Lemma object_reads_back (props : list (string * value)) :
  List.Forall (fun kv => reads_back kv.2) props -> reads_back (VObject props).
Proof.
  intros IH text Htext.
  rewrite SerializableFacts.stringify_object_parts in Htext.
  destruct (serialize_members SerializeJSONProperty props) as [parts|e] eqn:Hparts;
    [|discriminate].
  injection Htext as <-.
  pose proof (members_read_back props parts IH Hparts) as Hall.
  cbn [need]. set (M := foldr Nat.max 0%nat (map (fun kv => need kv.2) props)).
  assert (Hlen : length parts = length (List.filter present props))
    by (symmetry; by eapply Forall2_length).
  rewrite <- Hlen.
  assert (HM : List.Forall (fun p => exists n, (n <= M)%nat /\ member_parses n p) parts).
  { apply (forall2_bound member_parses (fun kv => need kv.2) _ _ M Hall).
    intros kv Hkv. apply filter_In in Hkv as [Hkv _].
    apply foldr_max_ge. by apply (in_map (fun kv => need kv.2)). }
  destruct parts as [|p parts].
  { change ("{" ++ join_comma [] ++ "}") with "{}".
    assert (HM1 : (M <= 1)%nat).
    { destruct (foldr_max_attained (map (fun kv => need kv.2) props)) as [E|Hin];
        fold M in E || fold M in Hin; [lia|].
      apply in_map_iff in Hin as (kv & Hkv & Hin).
      destruct (present kv) eqn:Hp.
      - assert (In kv (List.filter present props)) as Hf by (by apply filter_In).
        destruct (List.filter present props); [done|discriminate Hlen].
      - rewrite (absent_need kv Hp) in Hkv. lia. }
    apply (parses_mono 1); [|cbn; lia|cbn; lia].
    apply (parses_atom _ (JObject [])); [done|cbn; lia|reflexivity]. }
  split; [done|]. split.
  - rewrite append_cons, append_nil. cbn [String.length]. rewrite length_append.
    cbn [String.length].
    enough (length (p :: parts) + M <= S (String.length (join_comma (p :: parts))))%nat
      by lia.
    apply join_comma_bound; [done| |].
    + eapply List.Forall_impl; [|exact HM].
      intros q (n & _ & Hq & _). lia.
    + destruct (foldr_max_attained (map (fun kv => need kv.2) props)) as [E|Hin];
        [by left|].
      right. fold M in Hin. apply in_map_iff in Hin as (kv & Hkv & Hin).
      destruct (present kv) eqn:Hp.
      * assert (In kv (List.filter present props)) as Hf by (by apply filter_In).
        destruct (forall2_find _ _ _ kv Hall Hf) as (q & Hq & (Hle & _)).
        exists q. split; [done|]. lia.
      * rewrite (absent_need kv Hp) in Hkv. exists p. split; [by left|].
        apply List.Forall_inv in HM as (n & _ & Hle & _). lia.
  - intros rest [|f] Hr Hf; [lia|].
    rewrite append_cons, append_nil, append_cons, append_assoc.
    pose proof HM as HM'. apply List.Forall_inv in HM' as (n & Hn & _ & Hp).
    assert (Hstart : exists r0, join_comma (p :: parts) ++ "}" ++ rest
                                = String (ascii_of_N 34) r0).
    { destruct parts as [|q parts].
      - destruct (Hp ("}" ++ rest) n) as (r0 & _ & _ & _ & E & _); [done|lia|].
        by exists r0.
      - rewrite join_comma_cons, append_assoc.
        destruct (Hp (("," ++ join_comma (q :: parts)) ++ "}" ++ rest) n)
          as (r0 & _ & _ & _ & E & _); [done|lia|].
        by exists r0. }
    destruct Hstart as [r0 Hstart].
    assert (Hgoal : exists j, parse_members f (join_comma (p :: parts) ++ "}" ++ rest) []
                              = Some (j, rest)).
    { apply (members_parse M); [done|exact HM|]. cbn [length] in *. lia. }
    rewrite Hstart in Hgoal |- *. by rewrite parse_value_object.
Qed.

Theorem stringify_reads_back (v : value) : reads_back v.
Proof.
  induction v as [| |b|n|s|z|d| |items IH|props IH|n m|up] using value_nested_ind;
    intros text Htext; try discriminate Htext.
  - injection Htext as <-. apply (parses_atom _ JNull); [done|cbn; lia|reflexivity].
  - destruct b; injection Htext as <-.
    + apply (parses_atom _ (JBool true)); [done|cbn; lia|reflexivity].
    + apply (parses_atom _ (JBool false)); [done|cbn; lia|reflexivity].
  - destruct n as [z| |neg]; injection Htext as <-.
    + apply parses_number.
    + apply (parses_atom _ JNull); [done|cbn; lia|reflexivity].
    + apply (parses_atom _ JNull); [done|cbn; lia|reflexivity].
  - injection Htext as <-. apply parses_string.
  - by apply array_reads_back.
  - by apply object_reads_back.
  - injection Htext as <-. apply (parses_atom _ (JObject [])); [done|cbn; lia|reflexivity].
Qed.

Lemma JSON_parse_stringify (v : value) (s : string) :
  JSON_stringify v = Normal (Some s) -> exists j, JSON_parse (Some s) = Normal j.
Proof.
  intros Hs. destruct (stringify_reads_back v s Hs) as (_ & Hl & Hp).
  destruct (Hp "" (2 * String.length s + 2)%nat) as [j Hj]; [done|lia|].
  rewrite append_empty_r in Hj.
  exists j. unfold JSON_parse. cbv beta zeta. cbn [default from_option]. unfold id. rewrite Hj. reflexivity.
Qed.

(** X16. [isSerializable] answers [true] exactly for the values that hold
    no [BigInt] and no circular reference, at any depth, and are not
    [undefined], a symbol or a function; for every other value it answers
    [false]. It never throws. *)
Theorem isSerializable_decides (v : value) :
  isSerializable v = Normal (negb (unserializable v || renders_undefined v)).
Proof.
  pose proof (SerializableFacts.stringify_shape v) as Hshape.
  unfold stringify_by_shape in Hshape. unfold isSerializable.
  destruct (unserializable v).
  - destruct Hshape as [e ->]. reflexivity.
  - destruct Hshape as (t & Ht & Hu). rewrite Ht. cbn [bind orb].
    destruct t as [s|].
    + destruct (JSON_parse_stringify v s Ht) as [j ->]. cbn [bind try_catch].
      destruct (renders_undefined v); [|done]. discriminate (proj2 Hu eq_refl).
    + rewrite (proj1 Hu eq_refl).
      destruct InternalServerErrorFacts.JSON_parse_undefined as [e ->]. reflexivity.
Qed.

(** X17. [toJSON] changes nothing of the instance but its [detail]
    property, which it sets from the fault: the string form of an [Error];
    else the JSON text of the fault whenever [JSON.stringify] gives one;
    else, when [JSON.stringify] throws or answers [undefined], it leaves the
    generic message the constructor put there. *)
Theorem toJSON_sets_the_detail_property (F : value) :
  exists o e,
    toJSON (new F) = Normal (o, e) /\
    name o = "InternalServerError" /\ message o = "" /\
    statusCode o = 500%Z /\ error o = F /\
    detail o = match F with
               | VError n m => VString (Error_toString n m)
               | _ =>
                   match JSON_stringify F with
                   | Normal (Some s) => VString s
                   | _ => VString generic_detail
                   end
               end.
Proof.
  eexists _, _. split; [apply InternalServerErrorFacts.toJSON_new|].
  do 4 (split; [reflexivity|]). cbn [detail set_detail].
  unfold detail_property.
  destruct (JSON_stringify F) as [[s|]|err] eqn:Hj.
  - destruct (JSON_parse_stringify F s Hj) as [j Hp].
    assert (Hs : isSerializable F = Normal true)
      by (unfold isSerializable; rewrite Hj; cbn [bind]; rewrite Hp; reflexivity).
    rewrite Hs. by destruct F.
  - destruct (InternalServerErrorFacts.isSerializable_returns F) as [Hs|Hs].
    + destruct (InternalServerErrorFacts.isSerializable_true F Hs) as [s Hs'].
      rewrite Hj in Hs'. discriminate.
    + rewrite Hs. by destruct F.
  - destruct (InternalServerErrorFacts.isSerializable_returns F) as [Hs|Hs].
    + destruct (InternalServerErrorFacts.isSerializable_true F Hs) as [s Hs'].
      rewrite Hj in Hs'. discriminate.
    + rewrite Hs. by destruct F.
Qed.

End RoundTripFacts.

(** ** Runs of the further properties *)

Module MoreScenarios.
Import Sample.

(** The table of one user, with the store's answers planned ahead. *)
Definition first_call_fails : world := with_plan one_user_world [Some VNull].
Definition write_fails : world := with_plan one_user_world [None; None; Some VNull].
Definition reload_fails : world :=
  with_plan one_user_world [None; None; None; None; Some VNull].

(** [index] on the table of one user. *)
Lemma index_lists_every_stored_row_witness :
  exists items,
    outcome (UserController.index empty_create one_user_world)
      = Normal (res_send (Data (VArray items))) /\
    outcome (DirectUserController.index empty_create one_user_world)
      = Normal (res_send (Data (VArray items))) /\
    length items = size (rows one_user_world) /\
    (rows one_user_world = ∅ -> items = []) /\
    forall x, x ∈ items <->
              exists id row, rows one_user_world !! id = Some row /\
                             x = convert_values id row.
Proof.
  apply (MoreEndpointFacts.index_lists_every_stored_row empty_create one_user_world).
  reflexivity.
Defined.

(** The store rejects the first call with [null]. *)
Lemma first_fault_is_caught_or_escapes_witness :
  Forall (Compare.caught_or_escapes VNull first_call_fails)
    [(UserController.index (update_password "1") first_call_fails,
      DirectUserController.index (update_password "1") first_call_fails);
     (UserController.show (update_password "1") first_call_fails,
      DirectUserController.show (update_password "1") first_call_fails);
     (UserController.update (update_password "1") first_call_fails,
      DirectUserController.update (update_password "1") first_call_fails);
     (UserController.destroy (update_password "1") first_call_fails,
      DirectUserController.destroy (update_password "1") first_call_fails)].
Proof.
  apply (MoreEndpointFacts.first_fault_is_caught_or_escapes
           (update_password "1") first_call_fails VNull).
  reflexivity.
Defined.

(** A valid create whose first call to the store is rejected. *)
Lemma first_fault_of_create_witness :
  Compare.caught_or_escapes VNull first_call_fails
    (UserController.create valid_create first_call_fails,
     DirectUserController.create valid_create first_call_fails) /\
  trace (UserController.create valid_create first_call_fails)
    = [ETransaction (next_tx first_call_fails)] /\
  trace (DirectUserController.create valid_create first_call_fails)
    = [ECreate (create_values valid_create first_call_fails) None].
Proof.
  apply (MoreEndpointFacts.first_fault_of_create valid_create first_call_fails VNull).
  - reflexivity.
  - vm_compute. reflexivity.
Defined.

(** An update whose [reload] is rejected. *)
Lemma update_rejects_only_after_commit_witness :
  exists old,
    rows reload_fails !! "1" = Some old /\
    update_failures (update_password "1") = [] /\
    last (trace (UserController.update (update_password "1") reload_fails))
      = Some (EReload "1") /\
    ECommit (next_tx reload_fails)
      ∈ trace (UserController.update (update_password "1") reload_fails) /\
    rows (final (UserController.update (update_password "1") reload_fails)) !! "1"
      = Some (setters (omit_undefined (update_values (update_password "1"))) ∪ old).
Proof.
  apply (MoreEndpointFacts.update_rejects_only_after_commit
           (update_password "1") reload_fails VNull).
  vm_compute. reflexivity.
Defined.

(** An update whose write is rejected inside the transaction. *)
Lemma unsuccessful_requests_leave_the_table_witness :
  rows (final (UserController.update (update_password "1") write_fails))
  = rows write_fails.
Proof.
  apply (MoreEndpointFacts.unsuccessful_requests_leave_the_table
           (update_password "1") write_fails
           (UserController.update (update_password "1") write_fails)
           (res_status_send 500 (docWithErrors (internalServerError VNull)))).
  - right. left.
  - vm_compute. reflexivity.
  - cbn. lia.
  - cbn. lia.
Defined.

(** A valid create on the empty table, then a [show] of key 1. *)
Lemma show_after_create_witness :
  exists row,
    sent (res_status_send 201
            (Data (convert_values "1" (setters (create_values valid_create empty_world)))))
      = Data (convert_values "1" row) /\
    rows (final (UserController.create valid_create empty_world)) !! "1" = Some row /\
    (forall id, id <> "1" ->
       rows (final (UserController.create valid_create empty_world)) !! id
       = rows empty_world !! id) /\
    outcome (UserController.show {| params_id := "1"; body := ∅ |}
               (final (UserController.create valid_create empty_world)))
      = Normal (res_send (Data (convert_values "1" row))) /\
    outcome (DirectUserController.show {| params_id := "1"; body := ∅ |}
               (final (UserController.create valid_create empty_world)))
      = Normal (res_send (Data (convert_values "1" row))).
Proof.
  apply (MoreEndpointFacts.show_after_create valid_create empty_world
           (UserController.create valid_create empty_world)
           (res_status_send 201
              (Data (convert_values "1"
                       (setters (create_values valid_create empty_world)))))).
  - left. reflexivity.
  - vm_compute. reflexivity.
  - reflexivity.
  - reflexivity.
Defined.

(** The update of the stored user's password, then a [show] of the user. *)
Lemma show_after_update_witness :
  outcome (UserController.show (update_password "1")
             (final (UserController.update (update_password "1") one_user_world)))
    = Normal (res_send (Data (convert_values "1"
                                (<["password" := VString "digest"]> ada)))) /\
  outcome (DirectUserController.show (update_password "1")
             (final (UserController.update (update_password "1") one_user_world)))
    = Normal (res_send (Data (convert_values "1"
                                (<["password" := VString "digest"]> ada)))) /\
  forall id, id <> "1" ->
    rows (final (UserController.update (update_password "1") one_user_world)) !! id
    = rows one_user_world !! id.
Proof.
  apply (MoreEndpointFacts.show_after_update (update_password "1") one_user_world
           (UserController.update (update_password "1") one_user_world)
           (res_send (Data (convert_values "1"
                              (<["password" := VString "digest"]> ada))))).
  - left. reflexivity.
  - vm_compute. reflexivity.
  - reflexivity.
  - reflexivity.
Defined.

(** The stored user is destroyed by the direct controller. *)
Lemma gone_after_destroy_witness :
  (exists old, rows one_user_world !! "1" = Some old /\
               sent (res_send (Data (convert_values "1" ada)))
               = Data (convert_values "1" old)) /\
  rows (final (DirectUserController.destroy (update_password "1") one_user_world))
    = delete "1" (rows one_user_world) /\
  Forall (fun r' => outcome r'
                    = Normal (res_status_send 404 (Errors [resourceNotFound])))
    [UserController.show (update_password "1")
       (final (DirectUserController.destroy (update_password "1") one_user_world));
     DirectUserController.show (update_password "1")
       (final (DirectUserController.destroy (update_password "1") one_user_world));
     UserController.destroy (update_password "1")
       (final (DirectUserController.destroy (update_password "1") one_user_world));
     DirectUserController.destroy (update_password "1")
       (final (DirectUserController.destroy (update_password "1") one_user_world))].
Proof.
  apply (MoreEndpointFacts.gone_after_destroy (update_password "1") one_user_world
           (DirectUserController.destroy (update_password "1") one_user_world)
           (res_send (Data (convert_values "1" ada)))).
  - right. reflexivity.
  - vm_compute. reflexivity.
  - reflexivity.
  - reflexivity.
Defined.

(** The sample model's setters rewrite [password] only, so an update of the
    password leaves [email] as stored. *)
Lemma update_keeps_omitted_fields_witness :
  exists old new,
    rows one_user_world !! "1" = Some old /\
    rows (final (UserController.update (update_password "1") one_user_world)) !! "1"
      = Some new /\
    new !! "email" = old !! "email" /\
    sent (res_send (Data (convert_values "1"
                            (<["password" := VString "digest"]> ada))))
      = Data (convert_values "1" new).
Proof.
  apply (MoreEndpointFacts.update_keeps_omitted_fields
           (update_password "1") one_user_world
           (UserController.update (update_password "1") one_user_world)
           (res_send (Data (convert_values "1"
                              (<["password" := VString "digest"]> ada))))
           "email").
  - left. reflexivity.
  - vm_compute. reflexivity.
  - reflexivity.
  - reflexivity.
  - intros values Hv. cbn [setters model].
    destruct (values !! "password"); [|exact Hv].
    rewrite lookup_insert_ne; [exact Hv|discriminate].
Defined.

(** The two sources on the table of one user, whose plan is empty. *)
Lemma controllers_agree_on_a_healthy_store_witness :
  Forall Compare.same_answer
    [(UserController.index (update_password "1") one_user_world,
      DirectUserController.index (update_password "1") one_user_world);
     (UserController.create (update_password "1") one_user_world,
      DirectUserController.create (update_password "1") one_user_world);
     (UserController.show (update_password "1") one_user_world,
      DirectUserController.show (update_password "1") one_user_world);
     (UserController.update (update_password "1") one_user_world,
      DirectUserController.update (update_password "1") one_user_world);
     (UserController.destroy (update_password "1") one_user_world,
      DirectUserController.destroy (update_password "1") one_user_world)].
Proof.
  apply (HealthyStoreFacts.controllers_agree_on_a_healthy_store
           (update_password "1") one_user_world).
  reflexivity.
Defined.

(** A password-only payload for user 1: [create] misses two required
    fields, the other handlers find the row. *)
Lemma healthy_store_status_witness :
  Compare.answers (UserController.index (update_password "1") one_user_world) 200 /\
  Compare.answers (UserController.create (update_password "1") one_user_world) 422 /\
  Compare.answers (UserController.show (update_password "1") one_user_world) 200 /\
  Compare.answers (UserController.update (update_password "1") one_user_world) 200 /\
  Compare.answers (UserController.destroy (update_password "1") one_user_world) 200.
Proof.
  pose proof (MoreEndpointFacts.healthy_store_status
                (update_password "1") one_user_world eq_refl) as Hs.
  vm_compute (create_failures _) in Hs. vm_compute (update_failures _) in Hs.
  exact Hs.
Defined.

(** An instance that holds a [TypeError], serialized once. *)
Lemma toJSON_twice_witness :
  InternalServerError.toJSON
    (InternalServerError.set_detail
       (InternalServerError.new (VError "TypeError" "boom"))
       (VString "TypeError: boom"))
  = Normal (InternalServerError.set_detail
              (InternalServerError.new (VError "TypeError" "boom"))
              (VString "TypeError: boom"),
            InternalServerError.the_entry).
Proof.
  apply (SerializableFacts.toJSON_twice
           (InternalServerError.new (VError "TypeError" "boom"))).
  vm_compute. reflexivity.
Defined.

End MoreScenarios.
